(** * Restart scheduler over RCON: a shallow embedding of [server.js]

    The development follows the source file top to bottom:

    - [JsNumber], [JsDate], [Js]: the fragment of the JavaScript runtime
      the program relies on (number parsing and printing, the ECMAScript
      time-value arithmetic behind [Date], JSON values, exceptions);
    - [Rcon]: the [RconClient] class (pending-callback table, identifier
      counter, [sendCommand] and the inbound message listener);
    - [Scheduler]: [formatTime], [sendDiscordNotification],
      [scheduleRestart], the timer callbacks and [getNextRestartTime];
    - [Props]: the vocabulary of the statements (runs of a client, the
      specification's wording of a rendering, sample states).

    Conventions.  Integer-valued JavaScript numbers are modelled by [Z] and
    quotients of them by [Q]; this is exact as long as the integers stay
    below 2^53, which covers every value the program manipulates (time values
    are bounded by 8.64e15 < 2^53).  The clock ([new Date()]) is an explicit
    argument [now].  Effects (frames put on the socket, log lines, timers
    handed to [setTimeout], webhook requests, calls of reply callbacks) are
    recorded, in order, in a trace; a timer is recorded with the callback and
    the delay passed to [setTimeout], and running it is the separate step
    [fire], taken at whatever clock reading the runtime runs it. *)

From Stdlib Require Import ZArith QArith Qround Lia Bool List Ascii String Sorted.
From stdpp Require Import gmap strings pretty.
Import ListNotations.

Local Open Scope string_scope.
Local Open Scope Z_scope.

Set Warnings "-register-all".

(** ** Numbers: [Number(string)] and number-to-string *)

Module JsNumber.

(** A JavaScript number as far as the program can observe it: an integer
    or [NaN]. *)
Inductive number :=
| Num (z : Z)
| NaN.

Definition digit_of (c : ascii) : option Z :=
  let n := Z.of_nat (nat_of_ascii c) in
  if (48 <=? n) && (n <=? 57) then Some (n - 48) else None.

Fixpoint digits_value (acc : Z) (s : string) : option Z :=
  match s with
  | EmptyString => Some acc
  | String c rest =>
      match digit_of c with
      | Some d => digits_value (10 * acc + d) rest
      | None => None
      end
  end.

(** [Number(s)] on the strings the scheduler parses: a run of decimal
    digits denotes its value and the empty string denotes 0.  Every other
    string is mapped to [NaN]; the numeric literals with a sign, a
    fraction, an exponent, a radix prefix or surrounding blanks that
    JavaScript also accepts are outside this model. *)
Definition Number (s : string) : number :=
  match digits_value 0 s with
  | Some z => Num z
  | None => NaN
  end.

(** Template-literal interpolation of an integer-valued number. *)
Definition toString (z : Z) : string := pretty z.

End JsNumber.

(** ** Dates: ECMAScript time values *)

Module JsDate.
Import JsNumber.

Definition msPerSecond : Z := 1000.
Definition msPerMinute : Z := 60000.
Definition msPerHour : Z := 3600000.
Definition msPerDay : Z := 86400000.

(** The largest magnitude of a time value ([TimeClip]). *)
Definition maxTime : Z := 8640000000000000.

Definition Day (t : Z) : Z := t / msPerDay.
Definition TimeWithinDay (t : Z) : Z := t mod msPerDay.

Definition DaysInYear (y : Z) : Z :=
  if negb (y mod 4 =? 0) then 365
  else if negb (y mod 100 =? 0) then 366
  else if negb (y mod 400 =? 0) then 365
  else 366.

Definition DayFromYear (y : Z) : Z :=
  365 * (y - 1970) + (y - 1969) / 4 - (y - 1901) / 100 + (y - 1601) / 400.

(** The year a day number falls in: the largest [y] with
    [DayFromYear y <= d], found among the three years around the
    mean-year estimate. *)
Definition YearFromDay (d : Z) : Z :=
  let y0 := 1970 + (400 * d) / 146097 in
  if DayFromYear (y0 + 1) <=? d then y0 + 1
  else if DayFromYear y0 <=? d then y0
  else y0 - 1.

Definition YearFromTime (t : Z) : Z := YearFromDay (Day t).

Definition InLeapYear (t : Z) : Z :=
  if DaysInYear (YearFromTime t) =? 366 then 1 else 0.

Definition DayWithinYear (t : Z) : Z := Day t - DayFromYear (YearFromTime t).

Definition MonthFromTime (t : Z) : Z :=
  let d := DayWithinYear t in
  let l := InLeapYear t in
  if d <? 31 then 0
  else if d <? 59 + l then 1
  else if d <? 90 + l then 2
  else if d <? 120 + l then 3
  else if d <? 151 + l then 4
  else if d <? 181 + l then 5
  else if d <? 212 + l then 6
  else if d <? 243 + l then 7
  else if d <? 273 + l then 8
  else if d <? 304 + l then 9
  else if d <? 334 + l then 10
  else 11.

Definition DateFromTime (t : Z) : Z :=
  let d := DayWithinYear t in
  let l := InLeapYear t in
  match MonthFromTime t with
  | 0 => d + 1
  | 1 => d - 30
  | 2 => d - 58 - l
  | 3 => d - 89 - l
  | 4 => d - 119 - l
  | 5 => d - 150 - l
  | 6 => d - 180 - l
  | 7 => d - 211 - l
  | 8 => d - 242 - l
  | 9 => d - 272 - l
  | 10 => d - 303 - l
  | _ => d - 333 - l
  end.

Definition HourFromTime (t : Z) : Z := (t / msPerHour) mod 24.
Definition MinFromTime (t : Z) : Z := (t / msPerMinute) mod 60.
Definition SecFromTime (t : Z) : Z := (t / msPerSecond) mod 60.

Definition MakeTime (hour min sec ms : Z) : Z :=
  hour * msPerHour + min * msPerMinute + sec * msPerSecond + ms.

(** Day number of the first day of month [mn] (0-based) of year [ym]. *)
Definition MonthStart (ym mn : Z) : Z :=
  let l := if DaysInYear ym =? 366 then 1 else 0 in
  DayFromYear ym +
  match mn with
  | 0 => 0
  | 1 => 31
  | 2 => 59 + l
  | 3 => 90 + l
  | 4 => 120 + l
  | 5 => 151 + l
  | 6 => 181 + l
  | 7 => 212 + l
  | 8 => 243 + l
  | 9 => 273 + l
  | 10 => 304 + l
  | _ => 334 + l
  end.

Definition MakeDay (year month date : Z) : Z :=
  let ym := year + month / 12 in
  let mn := month mod 12 in
  MonthStart ym mn + date - 1.

Definition MakeDate (day time : Z) : Z := day * msPerDay + time.

Definition TimeClip (t : Z) : number :=
  if maxTime <? Z.abs t then NaN else Num t.

(** A [Date] object is its time value: a number of milliseconds since the
    epoch or [NaN] (an invalid date). *)
Definition Date := number.

(** [Date.UTC(year, month, date, hours, minutes, seconds)]; a [NaN]
    argument ([undefined] coerces to it) gives [NaN], and a year from 0 to
    99 stands for 1900 + year. *)
Definition DateUTC (year month date hours minutes seconds : number) : number :=
  match year, month, date, hours, minutes, seconds with
  | Num y, Num m, Num dt, Num h, Num mi, Num s =>
      let yr := if (0 <=? y) && (y <=? 99) then 1900 + y else y in
      TimeClip (MakeDate (MakeDay yr m dt) (MakeTime h mi s 0))
  | _, _, _, _, _, _ => NaN
  end.

(** [new Date(value)] for a numeric [value]. *)
Definition newDate (value : number) : Date :=
  match value with
  | Num t => TimeClip t
  | NaN => NaN
  end.

Definition getTime (d : Date) : number := d.

Definition getUTCFullYear (d : Date) : number :=
  match d with Num t => Num (YearFromTime t) | NaN => NaN end.
Definition getUTCMonth (d : Date) : number :=
  match d with Num t => Num (MonthFromTime t) | NaN => NaN end.
Definition getUTCDate (d : Date) : number :=
  match d with Num t => Num (DateFromTime t) | NaN => NaN end.

(** [a <= b] on dates compares the time values; any comparison with
    [NaN] is false. *)
Definition date_le (a b : Date) : bool :=
  match a, b with
  | Num x, Num y => x <=? y
  | _, _ => false
  end.

End JsDate.

(** ** JSON values and the monad of effects *)

Module Js.

Inductive json :=
| JNull
| JBool (b : bool)
| JNumber (z : Z)
| JString (s : string)
| JArray (items : list json)
| JObject (fields : list (string * json)).

(** What [JSON.parse] makes of an inbound frame, as far as the listener
    looks into it: the value's kind and, for an object, its [Identifier]
    property.  The wire format gives [Identifier] as an optional integer;
    identifiers of another JSON type (which [>] and the property lookup
    would coerce) are outside this model. *)
Inductive message :=
| MsgNull
| MsgBool (b : bool)
| MsgNumber (z : Z)
| MsgString (text : string)
| MsgArray (items : list json)
| MsgObject (Identifier : option Z) (others : list (string * json)).

(** An inbound frame: text on which [JSON.parse] throws, or text that
    parses. *)
Inductive frame :=
| Unparsable (data : string)
| Parsed (data : string) (msg : message).

Inductive error :=
| TypeError (text : string)
| RangeError (text : string)
| SyntaxError (text : string).

(** [String(error)]. *)
Definition describe (e : error) : string :=
  match e with
  | TypeError text => "TypeError: " ++ text
  | RangeError text => "RangeError: " ++ text
  | SyntaxError text => "SyntaxError: " ++ text
  end.

Inductive outcome (A : Type) :=
| Returned (a : A)
| Thrown (e : error).
Arguments Returned {A} a.
Arguments Thrown {A} e.

Inductive level := info | error_level.

Inductive readyState := CONNECTING | OPEN | CLOSING | CLOSED.

Definition readyState_eqb (a b : readyState) : bool :=
  match a, b with
  | CONNECTING, CONNECTING | OPEN, OPEN | CLOSING, CLOSING | CLOSED, CLOSED => true
  | _, _ => false
  end.

End Js.

(** ** The [RconClient] class *)

Module Rcon.
Import Js.

Section Client.
(** Reply callbacks are opaque values; calling one is recorded as an
    event, and the callback is taken to return normally. *)
Context {Handler : Type}.

(** The closures handed to [setTimeout] by the scheduler. *)
Inductive task :=
| Announce (eventTime : Z) (scheduleName : string) (interval : Z)
| Terminal (scheduleName : string)
| Restart.

Inductive event :=
| Log (lvl : level) (text : string)
| WsSend (packet : json)
| Invoke (cb : Handler) (msg : message)
| SetTimeout (callback : task) (delay : Z)
| HttpsRequest (hostname path : string) (payload : json).

Record RconClient := {
  name : string;
  url : string;
  readyStateOf : readyState;
  callbacks : gmap Z Handler;
  lastIdentifier : Z
}.

(** One server's client together with everything the process has done so
    far, oldest event first. *)
Record state := {
  client : RconClient;
  trace : list event
}.

Definition M (A : Type) : Type := state -> outcome A * state.

Definition ret {A} (a : A) : M A := fun s => (Returned a, s).

Definition bind {A B} (m : M A) (k : A -> M B) : M B :=
  fun s =>
    match m s with
    | (Returned a, s') => k a s'
    | (Thrown e, s') => (Thrown e, s')
    end.

Definition throw {A} (e : error) : M A := fun s => (Thrown e, s).

Definition try_catch {A} (m : M A) (handler : error -> M A) : M A :=
  fun s =>
    match m s with
    | (Returned a, s') => (Returned a, s')
    | (Thrown e, s') => handler e s'
    end.

Definition emit (e : event) : M unit :=
  fun s => (Returned tt, {| client := client s; trace := trace s ++ [e] |}).

Definition this : M RconClient := fun s => (Returned (client s), s).

Definition set_client (c : RconClient) : M unit :=
  fun s => (Returned tt, {| client := c; trace := trace s |}).

Definition logger_info (text : string) : M unit := emit (Log info text).
Definition logger_error (text : string) : M unit := emit (Log error_level text).

End Client.

Arguments task : clear implicits.
Arguments event : clear implicits.
Arguments RconClient : clear implicits.
Arguments state : clear implicits.
Arguments M : clear implicits.

Declare Scope rcon_scope.
Delimit Scope rcon_scope with rcon.
Notation "x ← m ; k" := (bind m (fun x => k))
  (at level 20, m at level 100, k at level 200, only parsing) : rcon_scope.
Notation "m ;; k" := (bind m (fun _ => k))
  (at level 100, k at level 200, only parsing, right associativity) : rcon_scope.
Local Open Scope rcon_scope.

Section Methods.
Context {Handler : Type}.
#[local] Abbreviation M := (M Handler).

(** The constructor: an empty callback table, the counter at 1000, and a
    socket that starts connecting. *)
Definition new_RconClient (serverName host port password : string) : state Handler :=
  let u := "ws://" ++ host ++ ":" ++ port ++ "/" ++ password in
  {| client := {| name := serverName; url := u; readyStateOf := CONNECTING;
                  callbacks := ∅; lastIdentifier := 1000 |};
     trace := [Log info ("[" ++ serverName ++ "] Connecting to RCON at " ++ u)] |}.

(** [message.Identifier]: reading a property of [null] throws. *)
Definition get_Identifier (msg : message) : M (option Z) :=
  match msg with
  | MsgNull => throw (TypeError "Cannot read properties of null (reading 'Identifier')")
  | MsgBool _ | MsgNumber _ | MsgString _ | MsgArray _ => ret None
  | MsgObject i _ => ret i
  end.

(** Truthiness of [message.Identifier]. *)
Definition truthy (i : option Z) : bool :=
  match i with
  | Some z => negb (z =? 0)
  | None => false
  end.

(** [message.Identifier > 1000]; [undefined] compares false. *)
Definition gt_1000 (i : option Z) : bool :=
  match i with
  | Some z => 1000 <? z
  | None => false
  end.

(** [delete this.callbacks[k]]. *)
Definition delete_callback (k : Z) : M unit :=
  c ← this ;
  set_client {| name := name c; url := url c; readyStateOf := readyStateOf c;
                callbacks := delete k (callbacks c);
                lastIdentifier := lastIdentifier c |}.

(** The listener for ["message"]. *)
Definition on_message (f : frame) : M unit :=
  c ← this ;
  match f with
  | Unparsable data =>
      logger_error ("[" ++ name c ++ "] Error parsing message: " ++ data)
  | Parsed _ message =>
      i ← get_Identifier message ;
      if truthy i && gt_1000 i then
        match i with
        | Some k =>
            match callbacks c !! k with
            | Some cb => emit (Invoke cb message) ;; delete_callback k
            | None => ret tt
            end
        | None => ret tt
        end
      else ret tt
  end.

Definition on_open : M unit :=
  c ← this ; logger_info ("[" ++ name c ++ "] Connected").
Definition on_close : M unit :=
  c ← this ; logger_info ("[" ++ name c ++ "] Connection closed").
Definition on_error (err : string) : M unit :=
  c ← this ; logger_error ("[" ++ name c ++ "] Connection error: " ++ err).

(** The socket library moves [readyState] on its own. *)
Definition transport_moves (rs : readyState) : M unit :=
  c ← this ;
  set_client {| name := name c; url := url c; readyStateOf := rs;
                callbacks := callbacks c; lastIdentifier := lastIdentifier c |}.

Definition packet_of (identifier : Z) (cmd : string) : json :=
  JObject [("Identifier", JNumber identifier);
           ("Message", JString cmd);
           ("Name", JString "NodeRcon")].

(** The [if (callback)] block: take the next identifier and file the
    callback under it. *)
Definition register (callback : Handler) : M Z :=
  c ← this ;
  let identifier := lastIdentifier c + 1 in
  set_client {| name := name c; url := url c; readyStateOf := readyStateOf c;
                callbacks := <[identifier := callback]> (callbacks c);
                lastIdentifier := identifier |} ;;
  ret identifier.

(** The two closing statements: [ws.send] of the serialized packet and
    the log line. *)
Definition transmit (identifier : Z) (cmd : string) : M unit :=
  c ← this ;
  emit (WsSend (packet_of identifier cmd)) ;;
  logger_info ("[" ++ name c ++ "] Sent command: " ++ cmd).

Definition sendCommand (cmd : string) (callback : option Handler) : M unit :=
  c ← this ;
  if negb (readyState_eqb (readyStateOf c) OPEN) then
    logger_error ("[" ++ name c ++ "] WebSocket not open. Cannot send: " ++ cmd)
  else
    identifier ← match callback with
                 | Some cb => register cb
                 | None => ret (-1)
                 end ;
    transmit identifier cmd.

Definition sendAnnouncement (message : string) : M unit :=
  let prefix := "[Notification] " in
  let fullMessage := prefix ++ message in
  sendCommand ("say " ++ fullMessage) None.

Definition saveServer : M unit := sendCommand "server.save" None.
Definition restartServer : M unit := sendCommand "restart 0" None.

End Methods.

End Rcon.

(** ** The scheduler functions *)

Module Scheduler.
Import JsNumber JsDate Js Rcon.
Local Open Scope rcon_scope.

(** *** Number operations used by the scheduler *)

(** [a + b]. *)
Definition num_add (a b : number) : number :=
  match a, b with
  | Num x, Num y => Num (x + y)
  | _, _ => NaN
  end.

(** [ms / 1000], a rational number of seconds. *)
Definition div_1000 (ms : Z) : Q := (inject_Z ms / 1000)%Q.

(** [q > n] and [q >= n] for an integer [n]. *)
Definition q_gt (q : Q) (n : Z) : bool := negb (Qle_bool q (inject_Z n)).
Definition q_ge (q : Q) (n : Z) : bool := Qle_bool (inject_Z n) q.

(** *** [formatTime] *)

Definition formatTime (totalSeconds : Q) : string :=
  let totalSeconds := Qfloor totalSeconds in
  if 60 <=? totalSeconds then
    let minutes := Qfloor (inject_Z totalSeconds / 60)%Q in
    let seconds := Z.rem totalSeconds 60 in
    let minuteStr := if minutes =? 1 then "minute" else "minutes" in
    if 0 <? seconds then
      let secondStr := if seconds =? 1 then "second" else "seconds" in
      toString minutes ++ " " ++ minuteStr ++ " and " ++
      toString seconds ++ " " ++ secondStr
    else
      toString minutes ++ " " ++ minuteStr
  else
    if totalSeconds =? 1 then "1 second" else toString totalSeconds ++ " seconds".

(** *** [Date.prototype.toISOString] *)

(** [n] in decimal, zero-padded on the left to [width] characters. *)
Definition pad (width : nat) (n : Z) : string :=
  let digits := toString n in
  String.concat "" (repeat "0" (width - String.length digits)%nat) ++ digits.

Definition iso_year (y : Z) : string :=
  if (0 <=? y) && (y <=? 9999) then pad 4 y
  else if y <? 0 then "-" ++ pad 6 (- y)
  else "+" ++ pad 6 y.

(** [toISOString] of a valid date; on an invalid one it throws a
    [RangeError] (see [scheduleRestart]). *)
Definition toISOString (t : Z) : string :=
  iso_year (YearFromTime t) ++ "-" ++ pad 2 (MonthFromTime t + 1) ++ "-" ++
  pad 2 (DateFromTime t) ++ "T" ++ pad 2 (HourFromTime t) ++ ":" ++
  pad 2 (MinFromTime t) ++ ":" ++ pad 2 (SecFromTime t) ++ "." ++
  pad 3 (t mod msPerSecond) ++ "Z".

(** *** [String.prototype.split] on a one-character separator *)

Fixpoint split (sep : ascii) (s : string) : list string :=
  match s with
  | EmptyString => [EmptyString]
  | String c rest =>
      if Ascii.eqb c sep then EmptyString :: split sep rest
      else match split sep rest with
           | piece :: pieces => String c piece :: pieces
           | [] => [String c EmptyString]
           end
  end.

(** *** [getNextRestartTime] *)

(** Array destructuring: a missing element is [undefined], which
    [Date.UTC] coerces to [NaN]. *)
Definition element (i : nat) (parts : list number) : number := nth i parts NaN.

Definition getNextRestartTime (timeString : string) (now : Z) : Date :=
  let parts := map Number (split ":" timeString) in
  let hours := element 0 parts in
  let minutes := element 1 parts in
  let now := newDate (Num now) in
  let next := newDate (DateUTC (getUTCFullYear now) (getUTCMonth now) (getUTCDate now)
                               hours minutes (Num 0)) in
  if date_le next now then
    newDate (num_add (getTime next) (Num (24 * 60 * 60 * 1000)))
  else next.

(** *** [sendDiscordNotification], [scheduleRestart] and the timers *)

Record URL := { hostname : string; pathname : string; search : string }.

Section WithConfig.
Context {Handler : Type}.
#[local] Abbreviation M := (M Handler).

(** [new URL(text)]: the parsed address, or [None] when the constructor
    throws. *)
Variable new_URL : string -> option URL.

(** [config.discordWebhook]. *)
Variable discordWebhook : option string.

(** [config.discordWebhook || null]: the empty string counts as absent. *)
Definition globalDiscordWebhook : option string :=
  match discordWebhook with
  | Some EmptyString => None
  | other => other
  end.

Definition embed_payload (serverName restartType reconnectMsg : string) : json :=
  JObject [("embeds",
            JArray [JObject [("title", JString (serverName ++ " - " ++ restartType));
                             ("description", JString reconnectMsg);
                             ("color", JNumber 16711680)]])].

Definition sendDiscordNotification
    (webhookUrl serverName restartType reconnectMsg : string) : M unit :=
  let payload := embed_payload serverName restartType reconnectMsg in
  try_catch
    (parsedUrl ← match new_URL webhookUrl with
                 | Some u => ret u
                 | None => throw (TypeError "Invalid URL")
                 end ;
     emit (HttpsRequest (hostname parsedUrl)
                        (pathname parsedUrl ++ search parsedUrl) payload) ;;
     logger_info ("[" ++ serverName ++ "] Discord notification sent."))
    (fun error =>
       logger_error ("[" ++ serverName ++ "] Failed to send Discord notification: "
                     ++ describe error)).

(** [setTimeout(callback, delay)] for a delay that is a number of
    milliseconds. *)
Definition setTimeout (callback : task) (delay : Z) : M unit :=
  emit (SetTimeout callback delay).

Fixpoint forEach {A} (items : list A) (f : A -> M unit) : M unit :=
  match items with
  | [] => ret tt
  | x :: rest => f x ;; forEach rest f
  end.

Definition intervals : list Z := [1800; 1200; 900; 600; 300; 120; 60; 30; 10; 5].

(** [eventTime] is a [Date].  For an invalid one [msUntilRestart] is
    [NaN], the guard [msUntilRestart <= 0] is false, and evaluating
    [eventTime.toISOString()] for the log line throws. *)
Definition scheduleRestart (now : Z) (eventTime : Date) (scheduleName : string) : M unit :=
  c ← this ;
  match eventTime with
  | NaN => throw (RangeError "Invalid time value")
  | Num eventTime =>
      let msUntilRestart := eventTime - now in
      if msUntilRestart <=? 0 then
        logger_info ("[" ++ name c ++ "] Event time already passed.")
      else
        logger_info ("[" ++ name c ++ "] Scheduling " ++ scheduleName ++ " at " ++
                     toISOString eventTime ++ " (in " ++
                     toString (Qfloor (div_1000 msUntilRestart)) ++ " seconds)") ;;
        forEach intervals (fun interval =>
          if q_gt (div_1000 msUntilRestart) interval then
            let delay := msUntilRestart - interval * 1000 in
            setTimeout (Announce eventTime scheduleName interval) delay
          else ret tt) ;;
        setTimeout (Terminal scheduleName) msUntilRestart
  end.

(** What a timer's callback does when it runs at clock reading [now]. *)
Definition fire (now : Z) (callback : task) : M unit :=
  c ← this ;
  match callback with
  | Announce eventTime scheduleName interval =>
      let remaining := div_1000 (eventTime - now) in
      if q_ge remaining (interval - 1) then
        sendAnnouncement (scheduleName ++ " in " ++ formatTime (inject_Z interval)) ;;
        logger_info ("[" ++ name c ++ "] Announced: " ++ scheduleName ++ " in " ++
                     formatTime (inject_Z interval))
      else ret tt
  | Terminal scheduleName =>
      match globalDiscordWebhook with
      | Some webhook =>
          sendDiscordNotification webhook (name c) scheduleName "Reconnect in 5 minutes"
      | None => ret tt
      end ;;
      sendAnnouncement "Restarting now..." ;;
      saveServer ;;
      setTimeout Restart 2000 ;;
      logger_info ("[" ++ name c ++ "] Executed restart")
  | Restart => restartServer
  end.

End WithConfig.

End Scheduler.

(** ** Definitions used to state and check the properties *)

Module Props.
Import JsNumber JsDate Js Rcon Scheduler.

(** [P z] for every [z] among the [n] integers from [z0] on. *)
Fixpoint all_from (n : nat) (z0 : Z) (P : Z -> bool) : bool :=
  match n with
  | O => true
  | S k => P z0 && all_from k (z0 + 1) P
  end.

Definition year_ok (d : Z) : bool :=
  (DayFromYear (YearFromDay d) <=? d) && (d <? DayFromYear (YearFromDay d + 1)).

(** The character of a decimal digit. *)
Definition digit_char (d : Z) : ascii := ascii_of_nat (Z.to_nat (48 + d)).

(** A zero-padded two-digit field and a zero-padded ["HH:MM"] string. *)
Definition two_digits (n : Z) : string :=
  String (digit_char (n / 10)) (String (digit_char (n mod 10)) EmptyString).

Definition hhmm (h m : Z) : string := two_digits h ++ ":" ++ two_digits m.

(** The rendering of a duration as the specification words it: a unit
    name takes its plural ["s"] unless the count is 1. *)
Definition unit_name (noun : string) (count : Z) : string :=
  if count =? 1 then noun else noun ++ "s".

Definition formatTime_spec (s : Z) : string :=
  if 60 <=? s then
    let minutes := s / 60 in
    let remainder := s mod 60 in
    toString minutes ++ " " ++ unit_name "minute" minutes ++
    (if 0 <? remainder
     then " and " ++ toString remainder ++ " " ++ unit_name "second" remainder
     else "")
  else
    if s =? 1 then "1 second" else toString s ++ " seconds".

(** The instant on [now]'s UTC day at wall time [h]:[m]:00. *)
Definition today_at (now h m : Z) : Z := MakeDate (Day now) (MakeTime h m 0 0).

Section Runs.
Context {Handler : Type}.
Variable new_URL : string -> option URL.
Variable discordWebhook : option string.

(** The state after a computation that only emits [added]. *)
Definition appends (added : list (event Handler)) (s : state Handler) : state Handler :=
  {| client := client s; trace := trace s ++ added |}.

Definition is_open (s : state Handler) : bool :=
  readyState_eqb (readyStateOf (client s)) OPEN.

(** What a send without a reply handler leaves in the trace. *)
Definition send_events (cmd : string) (s : state Handler) : list (event Handler) :=
  if is_open s then
    [WsSend (packet_of (-1) cmd);
     Log info ("[" ++ name (client s) ++ "] Sent command: " ++ cmd)]
  else
    [Log error_level ("[" ++ name (client s) ++ "] WebSocket not open. Cannot send: " ++ cmd)].

(** The announcement timers of a cascade armed [ms] milliseconds before
    [eventTime], in the order they are set. *)
Definition announcement_timers (eventTime ms : Z) (label : string) : list (event Handler) :=
  map (fun L => SetTimeout (Announce eventTime label L) (ms - L * 1000))
      (List.filter (fun L => L * 1000 <? ms) intervals).

(** What the webhook notification of a restart leaves in the trace. *)
Definition webhook_events (label : string) (s : state Handler) : list (event Handler) :=
  match globalDiscordWebhook discordWebhook with
  | None => []
  | Some webhook =>
      match new_URL webhook with
      | Some u =>
          [HttpsRequest (hostname u) (pathname u ++ search u)
             (JObject [("embeds",
                        JArray [JObject [("title", JString (name (client s) ++ " - " ++ label));
                                         ("description", JString "Reconnect in 5 minutes");
                                         ("color", JNumber 16711680)]])]);
           Log info ("[" ++ name (client s) ++ "] Discord notification sent.")]
      | None =>
          [Log error_level ("[" ++ name (client s) ++
                            "] Failed to send Discord notification: TypeError: Invalid URL")]
      end
  end.

(** The client with the callback filed under [k] removed. *)
Definition without_callback (k : Z) (c : RconClient Handler) : RconClient Handler :=
  {| name := name c; url := url c; readyStateOf := readyStateOf c;
     callbacks := delete k (callbacks c); lastIdentifier := lastIdentifier c |}.

(** The client after a send with reply handler [cb]. *)
Definition with_callback (cb : Handler) (c : RconClient Handler) : RconClient Handler :=
  {| name := name c; url := url c; readyStateOf := readyStateOf c;
     callbacks := <[lastIdentifier c + 1 := cb]> (callbacks c);
     lastIdentifier := lastIdentifier c + 1 |}.

(** Everything that can happen to one server's client while the
    process runs. *)
Inductive op :=
| Send (cmd : string) (callback : option Handler)
| Message (f : frame)
| SocketOpen
| SocketClose
| SocketError (err : string)
| SocketState (rs : readyState)
| Arm (now : Z) (eventTime : Date) (scheduleName : string)
| Fire (now : Z) (callback : task).

Definition exec (o : op) : M Handler unit :=
  match o with
  | Send cmd callback => sendCommand cmd callback
  | Message f => on_message f
  | SocketOpen => on_open
  | SocketClose => on_close
  | SocketError err => on_error err
  | SocketState rs => transport_moves rs
  | Arm now eventTime scheduleName => scheduleRestart now eventTime scheduleName
  | Fire now callback => fire new_URL discordWebhook now callback
  end.

(** The state after a sequence of such steps. *)
Fixpoint run (ops : list op) (s : state Handler) : state Handler :=
  match ops with
  | [] => s
  | o :: rest => run rest (snd (exec o s))
  end.

(** The states of a client that was created by the constructor. *)
Definition reachable (s : state Handler) : Prop :=
  exists serverName host port password ops,
    s = run ops (new_RconClient serverName host port password).

(** How one step can change the client: not at all, in the socket's
    state, by filing a callback, or by removing one. *)
Inductive client_step (c : RconClient Handler) : RconClient Handler -> Prop :=
| step_same : client_step c c
| step_moved rs :
    client_step c {| name := name c; url := url c; readyStateOf := rs;
                     callbacks := callbacks c; lastIdentifier := lastIdentifier c |}
| step_filed cb : client_step c (with_callback cb c)
| step_removed k : client_step c (without_callback k c).

(** Every pending identifier lies above 1000 and was handed out by the
    counter. *)
Definition counter_bounds (c : RconClient Handler) : Prop :=
  1000 <= lastIdentifier c /\
  forall k, is_Some (callbacks c !! k) -> 1000 < k <= lastIdentifier c.

(** An identifier that was handed out and is no longer pending. *)
Definition retired (k : Z) (c : RconClient Handler) : Prop :=
  callbacks c !! k = None /\ k <= lastIdentifier c.

(** An inbound frame that correlates with a pending callback: it
    parses, carries an identifier above 1000, and the table has a
    callback under that identifier. *)
Definition correlated (s : state Handler) (f : frame)
    (k : Z) (cb : Handler) (msg : message) : Prop :=
  exists data others,
    f = Parsed data msg /\ msg = MsgObject (Some k) others /\
    1000 < k /\ callbacks (client s) !! k = Some cb.

End Runs.

(** A client whose socket has opened, with callbacks named by numbers and
    a configuration without webhook. *)
Definition connected : state nat :=
  run (fun _ => None) None [SocketState OPEN; SocketOpen]
      (new_RconClient "srv" "host" "28016" "pw").

(** The same client after a send with reply handler 7, which takes
    identifier 1001. *)
Definition awaiting : state nat :=
  run (fun _ => None) None [SocketState OPEN; SocketOpen; Send "status" (Some 7%nat)]
      (new_RconClient "srv" "host" "28016" "pw").

End Props.

(** ** Startup, and the vocabulary of the further properties *)

Module Coverage.
Import JsNumber JsDate Js Rcon Scheduler Props.
Local Open Scope rcon_scope.

Section Startup.
Context {Handler : Type}.

(** The body of the loop over [dailyRestartTimesUTC].  The clock is read
    twice, by [getNextRestartTime] and then by [scheduleRestart]. *)
Definition arm_daily (timeStr : string) (now_get now_arm : Z) : M Handler unit :=
  let nextRestart := getNextRestartTime timeStr now_get in
  scheduleRestart now_arm nextRestart "Daily restart".

(** The body of the loop over [config.servers], for one server: the
    constructor, then one cascade per configured time when the list is
    present.  Each time string comes with the two clock readings taken while
    it is processed; an exception leaves the loop. *)
Definition start_server (serverName host port password : string)
    (dailyRestartTimesUTC : option (list (string * (Z * Z))))
    : outcome unit * state Handler :=
  let client := new_RconClient serverName host port password in
  match dailyRestartTimesUTC with
  | Some times =>
      forEach times (fun entry => arm_daily (fst entry) (fst (snd entry)) (snd (snd entry)))
              client
  | None => (Returned tt, client)
  end.

(** An event that is neither a callback call nor a frame with a
    correlation identifier. *)
Definition plain (e : event Handler) : Prop :=
  match e with
  | Invoke _ _ => False
  | WsSend packet => exists cmd, packet = packet_of (-1) cmd
  | _ => True
  end.

(** The steps the program itself takes: every send of [server.js] is
    without a reply handler. *)
Definition fire_and_forget (o : op (Handler := Handler)) : bool :=
  match o with
  | Send _ (Some _) => false
  | _ => true
  end.

(** A step that delivers a frame carrying identifier [k]. *)
Definition carries (k : Z) (o : op (Handler := Handler)) : bool :=
  match o with
  | Message (Parsed _ (MsgObject (Some k') _)) => k' =? k
  | _ => false
  end.

(** The number of callback calls in a trace. *)
Definition invocations (tr : list (event Handler)) : nat :=
  length (List.filter (fun e => match e with Invoke _ _ => true | _ => false end) tr).

(** The correlation identifiers of the frames of a trace, oldest first. *)
Definition issued (tr : list (event Handler)) : list Z :=
  flat_map (fun e => match e with
                     | WsSend (JObject (("Identifier", JNumber i) :: _)) =>
                         if 1000 <? i then [i] else []
                     | _ => []
                     end) tr.

(** The delays of the timers of a trace, in the order they were set. *)
Definition delays (tr : list (event Handler)) : list Z :=
  flat_map (fun e => match e with SetTimeout _ delay => [delay] | _ => [] end) tr.

(** The frames of a trace, oldest first. *)
Definition frames (tr : list (event Handler)) : list json :=
  flat_map (fun e => match e with WsSend packet => [packet] | _ => [] end) tr.

End Startup.

Section OnTime.
Context {Handler : Type}.
Variable new_URL : string -> option URL.
Variable discordWebhook : option string.

(** The event loop running, each exactly when it is due, the timers that
    were set at clock reading [now], in the order of a trace. *)
Fixpoint fire_timers (now : Z) (tr : list (event Handler)) : M Handler unit :=
  match tr with
  | [] => ret tt
  | SetTimeout callback delay :: rest =>
      fire new_URL discordWebhook (now + delay) callback ;; fire_timers now rest
  | _ :: rest => fire_timers now rest
  end.

(** A whole cascade with every timer on time: arming at [now], then the
    timers just set, then the restart timer the terminal callback sets, 2000
    ms after the event. *)
Definition cascade_on_time (now eventTime : Z) (label : string) (s : state Handler)
    : state Handler :=
  let armed := snd (scheduleRestart now (Num eventTime) label s) in
  let timers := skipn (length (trace s)) (trace armed) in
  let at_restart := snd (fire_timers now timers armed) in
  snd (fire new_URL discordWebhook (eventTime + 2000) Restart at_restart).

(** The frame of a fire-and-forget command. *)
Definition announcement (label : string) (L : Z) : json :=
  packet_of (-1) ("say [Notification] " ++ label ++ " in " ++ formatTime (inject_Z L)).

End OnTime.

(** Whether a string contains a character. *)
Fixpoint contains (c : ascii) (s : string) : bool :=
  match s with
  | EmptyString => false
  | String c' rest => Ascii.eqb c' c || contains c rest
  end.

(** The value [getNextRestartTime] computes from today's instant. *)
Definition next_from (today now : Z) : Z :=
  if today <=? now then today + 24 * 60 * 60 * 1000 else today.

End Coverage.

(** * Properties *)

Import JsNumber JsDate Js Rcon Scheduler Props.
Local Open Scope rcon_scope.

(** Unfolds the monad's plumbing, leaving the events and the client. *)
Ltac unfold_M :=
  cbv [bind ret this emit set_client logger_info logger_error throw try_catch
       setTimeout transmit register delete_callback get_Identifier];
  cbn [client trace name url readyStateOf callbacks lastIdentifier fst snd].

(** ** The calendar *)

Section Calendar.

Lemma all_from_spec n P :
  forall z0, all_from n z0 P = true ->
  forall x, z0 <= x < z0 + Z.of_nat n -> P x = true.
Proof.
  induction n as [|k IH]; simpl; intros z0 H x Hx; [lia|].
  apply andb_prop in H as [H1 H2].
  destruct (Z.eq_dec x z0) as [->|Hne]; [exact H1|].
  apply (IH (z0 + 1)); [exact H2 | lia].
Qed.

Lemma DayFromYear_shift y q : DayFromYear (y + 400 * q) = DayFromYear y + 146097 * q.
Proof.
  unfold DayFromYear.
  replace (y + 400 * q - 1969) with (y - 1969 + (100 * q) * 4) by lia.
  replace (y + 400 * q - 1901) with (y - 1901 + (4 * q) * 100) by lia.
  replace (y + 400 * q - 1601) with (y - 1601 + q * 400) by lia.
  rewrite !Z.div_add by lia. lia.
Qed.

Lemma YearFromDay_shift d q : YearFromDay (d + 146097 * q) = YearFromDay d + 400 * q.
Proof.
  unfold YearFromDay.
  replace (400 * (d + 146097 * q)) with (400 * d + (400 * q) * 146097) by lia.
  rewrite Z.div_add by lia.
  replace (1970 + (400 * d / 146097 + 400 * q) + 1)
    with (1970 + 400 * d / 146097 + 1 + 400 * q) by lia.
  replace (1970 + (400 * d / 146097 + 400 * q))
    with (1970 + 400 * d / 146097 + 400 * q) by lia.
  rewrite !DayFromYear_shift.
  repeat match goal with
         | |- context [?a <=? ?b] => destruct (Z.leb_spec a b)
         end; lia.
Qed.

(** One 400-year cycle of the Gregorian calendar, checked day by day. *)
Lemma year_ok_cycle : all_from (Z.to_nat 146097) 0 year_ok = true.
Proof. vm_compute. reflexivity. Qed.

(** [YearFromDay] is the year the day falls in ... *)
Lemma YearFromDay_spec d :
  DayFromYear (YearFromDay d) <= d < DayFromYear (YearFromDay d + 1).
Proof.
  pose proof (Z.div_mod d 146097 ltac:(lia)) as Hd.
  pose proof (Z.mod_pos_bound d 146097 ltac:(lia)) as Hr.
  set (q := d / 146097) in *. set (r := d mod 146097) in *.
  replace d with (r + 146097 * q) by lia.
  rewrite YearFromDay_shift.
  replace (YearFromDay r + 400 * q + 1) with (YearFromDay r + 1 + 400 * q) by lia.
  rewrite !DayFromYear_shift.
  pose proof (all_from_spec _ _ _ year_ok_cycle r) as Hok.
  rewrite Z2Nat.id in Hok by lia. specialize (Hok ltac:(lia)).
  unfold year_ok in Hok. apply andb_prop in Hok as [H1 H2].
  apply Z.leb_le in H1. apply Z.ltb_lt in H2. lia.
Qed.

Lemma DayFromYear_succ y : DayFromYear y < DayFromYear (y + 1).
Proof. unfold DayFromYear. Z.div_mod_to_equations; lia. Qed.

Lemma DayFromYear_mono y y' : y <= y' -> DayFromYear y <= DayFromYear y'.
Proof.
  intros H. replace y' with (y + Z.of_nat (Z.to_nat (y' - y))) by lia.
  induction (Z.to_nat (y' - y)) as [|k IH]; [rewrite Z.add_0_r; lia|].
  pose proof (DayFromYear_succ (y + Z.of_nat k)).
  replace (y + Z.of_nat (S k)) with (y + Z.of_nat k + 1) by lia. lia.
Qed.

(** ... and, as ECMAScript defines [YearFromTime], the largest year that
    starts at or before [t]. *)
Lemma YearFromTime_largest t y :
  DayFromYear y * msPerDay <= t <-> y <= YearFromTime t.
Proof.
  unfold YearFromTime.
  pose proof (YearFromDay_spec (Day t)) as [Hlo Hhi].
  assert (Hday : forall k, k * msPerDay <= t <-> k <= Day t).
  { intros k. unfold Day, msPerDay. split; intros Hk.
    - apply Z.div_le_lower_bound; lia.
    - pose proof (Z.mul_div_le t 86400000 ltac:(lia)). nia. }
  rewrite Hday. split; intros Hy.
  - destruct (Z_le_gt_dec y (YearFromDay (Day t))) as [|Hgt]; [assumption|].
    pose proof (DayFromYear_mono (YearFromDay (Day t) + 1) y ltac:(lia)). lia.
  - pose proof (DayFromYear_mono y (YearFromDay (Day t)) Hy). lia.
Qed.

Lemma YearFromTime_epoch t : 0 <= t -> 1970 <= YearFromTime t.
Proof.
  intros Ht. apply YearFromTime_largest. vm_compute DayFromYear. unfold msPerDay. lia.
Qed.

Lemma MonthFromTime_range t : 0 <= MonthFromTime t < 12.
Proof.
  unfold MonthFromTime.
  repeat (match goal with |- context [if ?b then _ else _] => destruct b end); lia.
Qed.

(** Reading the calendar fields of [t] and assembling them again gives
    back the day number of [t]. *)
Lemma MakeDay_of_fields t :
  MakeDay (YearFromTime t) (MonthFromTime t) (DateFromTime t) = Day t.
Proof.
  unfold MakeDay, MonthStart, DateFromTime.
  pose proof (MonthFromTime_range t) as Hm.
  rewrite (Z.div_small _ 12), (Z.mod_small _ 12), Z.add_0_r by exact Hm.
  unfold DayWithinYear, InLeapYear.
  destruct (MonthFromTime t) as [|p|p]; try lia.
  do 4 (try destruct p as [p|p|]); try lia.
Qed.

End Calendar.

(** ** [getNextRestartTime] *)

Section NextRestartTime.

Lemma digit_of_digit_char d : 0 <= d < 10 -> digit_of (digit_char d) = Some d.
Proof.
  intros H.
  assert (Hd : d = 0 \/ d = 1 \/ d = 2 \/ d = 3 \/ d = 4 \/
               d = 5 \/ d = 6 \/ d = 7 \/ d = 8 \/ d = 9) by lia.
  repeat destruct Hd as [->|Hd]; try subst d; reflexivity.
Qed.

Lemma digit_char_not_colon d : 0 <= d < 10 -> Ascii.eqb (digit_char d) ":" = false.
Proof.
  intros H.
  assert (Hd : d = 0 \/ d = 1 \/ d = 2 \/ d = 3 \/ d = 4 \/
               d = 5 \/ d = 6 \/ d = 7 \/ d = 8 \/ d = 9) by lia.
  repeat destruct Hd as [->|Hd]; try subst d; reflexivity.
Qed.

Lemma Number_two_digits n : 0 <= n < 100 -> Number (two_digits n) = Num n.
Proof.
  intros H. unfold Number, two_digits. cbn [digits_value].
  rewrite !digit_of_digit_char by (Z.div_mod_to_equations; lia).
  f_equal. Z.div_mod_to_equations; lia.
Qed.

Lemma split_hhmm h m :
  0 <= h < 100 -> 0 <= m < 100 ->
  split ":" (hhmm h m) = [two_digits h; two_digits m].
Proof.
  intros Hh Hm. cbv [hhmm two_digits String.append split].
  rewrite !digit_char_not_colon by (Z.div_mod_to_equations; lia).
  reflexivity.
Qed.

Lemma TimeClip_in_range t : - maxTime <= t <= maxTime -> TimeClip t = Num t.
Proof.
  intros H. unfold TimeClip.
  destruct (Z.ltb_spec maxTime (Z.abs t)); [lia | reflexivity].
Qed.

(** Unless [now] lies in the years 0 to 99, which [Date.UTC] reads as 1900
    to 1999, [Date.UTC] of today's calendar fields with the parsed hour and
    minute is today's instant at that wall time. *)
Lemma DateUTC_today now h m :
  ~ (0 <= YearFromTime now <= 99) ->
  DateUTC (getUTCFullYear (Num now)) (getUTCMonth (Num now)) (getUTCDate (Num now))
          (Num h) (Num m) (Num 0)
  = TimeClip (today_at now h m).
Proof.
  intros Hy. unfold DateUTC, getUTCFullYear, getUTCMonth, getUTCDate, today_at.
  destruct (Z.leb_spec 0 (YearFromTime now)), (Z.leb_spec (YearFromTime now) 99);
    cbn [andb]; try lia; now rewrite MakeDay_of_fields.
Qed.

Lemma today_at_bounds now h m :
  0 <= h < 24 -> 0 <= m < 60 ->
  now - msPerDay < today_at now h m - (h * msPerHour + m * msPerMinute) <= now.
Proof.
  intros Hh Hm. unfold today_at, MakeDate, MakeTime, Day, msPerDay, msPerHour, msPerMinute, msPerSecond.
  Z.div_mod_to_equations; lia.
Qed.

Lemma wall_time_of t d h m :
  0 <= h < 24 -> 0 <= m < 60 ->
  t = MakeDate d (MakeTime h m 0 0) ->
  HourFromTime t = h /\ MinFromTime t = m /\ SecFromTime t = 0.
Proof.
  intros Hh Hm ->.
  unfold HourFromTime, MinFromTime, SecFromTime, MakeDate, MakeTime,
    msPerDay, msPerHour, msPerMinute, msPerSecond.
  repeat split; Z.div_mod_to_equations; lia.
Qed.

End NextRestartTime.

Lemma today_at_floor now h m :
  0 <= h -> 0 <= m -> - maxTime <= now -> - maxTime <= today_at now h m.
Proof.
  intros Hh Hm Hnow.
  unfold today_at, MakeDate, MakeTime, Day, maxTime, msPerDay, msPerHour, msPerMinute,
    msPerSecond in *.
  Z.div_mod_to_equations; lia.
Qed.

(** The boundaries of the statement below: in the years 0 to 99 the
    two-digit-year rule of [Date.UTC] moves the result into the twentieth
    century, and on the last representable day the added day overflows into
    an invalid date. *)
Example getNextRestartTime_boundaries :
  toISOString (-60589296000000) = "0050-01-01T00:00:00.000Z" /\
  getNextRestartTime "00:00" (-60589296000000) = Num (-631152000000) /\
  toISOString (-631152000000) = "1950-01-01T00:00:00.000Z" /\
  getNextRestartTime "00:00" maxTime = NaN.
Proof. repeat split; vm_compute; reflexivity. Qed.

(** C1.  For a zero-padded ["HH:MM"] string (hour [h] below 24, minute [m]
    below 60) and an instant [now] that a [Date] can hold, up to one day
    before the last one and outside the years 0 to 99, [getNextRestartTime]
    parses the string to [h] and [m] and returns an instant strictly after
    [now] whose UTC hour is [h], whose UTC minute is [m] and whose seconds are
    zero.  When today's instant at that wall time is at or before [now] the
    result is that instant plus 86400 seconds, otherwise it is that instant.
    Every clock reading from the epoch on is outside the years 0 to 99.  In
    particular ["00:00"] at 2024-01-01T00:00:00Z gives
    2024-01-02T00:00:00Z. *)
Theorem getNextRestartTime_next_occurrence :
  (forall h m now,
      0 <= h < 24 -> 0 <= m < 60 ->
      - maxTime <= now <= maxTime - msPerDay -> ~ (0 <= YearFromTime now <= 99) ->
      map Number (split ":" (hhmm h m)) = [Num h; Num m] /\
      exists next,
        getNextRestartTime (hhmm h m) now = Num next /\
        now < next /\
        HourFromTime next = h /\ MinFromTime next = m /\ SecFromTime next = 0 /\
        (today_at now h m <= now -> next = today_at now h m + 86400 * 1000) /\
        (now < today_at now h m -> next = today_at now h m)) /\
  (forall now, 0 <= now -> ~ (0 <= YearFromTime now <= 99)) /\
  (hhmm 0 0 = "00:00" /\
   DateUTC (Num 2024) (Num 0) (Num 1) (Num 0) (Num 0) (Num 0) = Num 1704067200000 /\
   getNextRestartTime "00:00" 1704067200000
   = DateUTC (Num 2024) (Num 0) (Num 2) (Num 0) (Num 0) (Num 0)).
Proof.
  split; [|split; [|repeat split; vm_compute; reflexivity]].
  2:{ intros now Hnow. pose proof (YearFromTime_epoch now Hnow). lia. }
  intros h m now Hh Hm Hnow Hyear.
  assert (Hparse : map Number (split ":" (hhmm h m)) = [Num h; Num m]).
  { rewrite split_hhmm by lia. cbn [map]. rewrite !Number_two_digits by lia. reflexivity. }
  split; [exact Hparse|].
  pose proof (today_at_bounds now h m Hh Hm) as Hb.
  pose proof (today_at_floor now h m ltac:(lia) ltac:(lia) ltac:(lia)) as Hfloor.
  assert (Hmax : maxTime = 8640000000000000) by reflexivity.
  assert (Hday : msPerDay = 86400000) by reflexivity.
  assert (Hhour : msPerHour = 3600000) by reflexivity.
  assert (Hmin : msPerMinute = 60000) by reflexivity.
  unfold getNextRestartTime. rewrite Hparse. cbn [element nth newDate].
  rewrite (TimeClip_in_range now) by lia.
  rewrite DateUTC_today by exact Hyear.
  set (today := today_at now h m) in *.
  rewrite (TimeClip_in_range today) by lia.
  cbn [newDate]. rewrite (TimeClip_in_range today) by lia.
  cbn [date_le getTime num_add].
  destruct (Z.leb_spec today now) as [Hle|Hgt].
  - exists (today + 24 * 60 * 60 * 1000).
    cbn [newDate]. rewrite TimeClip_in_range by lia.
    destruct (wall_time_of (today + 24 * 60 * 60 * 1000) (Day now + 1) h m Hh Hm)
      as (H1 & H2 & H3).
    { unfold today, today_at, MakeDate. rewrite Hday. lia. }
    repeat split; try assumption; try lia.
  - exists today.
    destruct (wall_time_of today (Day now) h m Hh Hm eq_refl) as (H1 & H2 & H3).
    repeat split; try assumption; try lia.
Qed.

Lemma getNextRestartTime_next_occurrence_witness :
  0 <= 8 < 24 /\ 0 <= 30 < 60 /\
  - maxTime <= 1704067200000 <= maxTime - msPerDay /\
  ~ (0 <= YearFromTime 1704067200000 <= 99) /\
  map Number (split ":" (hhmm 8 30)) = [Num 8; Num 30] /\
  exists next,
    getNextRestartTime (hhmm 8 30) 1704067200000 = Num next /\
    1704067200000 < next /\
    HourFromTime next = 8 /\ MinFromTime next = 30 /\ SecFromTime next = 0 /\
    (today_at 1704067200000 8 30 <= 1704067200000 ->
     next = today_at 1704067200000 8 30 + 86400 * 1000) /\
    (1704067200000 < today_at 1704067200000 8 30 ->
     next = today_at 1704067200000 8 30).
Proof.
  assert (Hh : 0 <= 8 < 24) by lia.
  assert (Hm : 0 <= 30 < 60) by lia.
  assert (Hnow : - maxTime <= 1704067200000 <= maxTime - msPerDay)
    by (unfold maxTime, msPerDay; lia).
  assert (Hyear : ~ (0 <= YearFromTime 1704067200000 <= 99))
    by (vm_compute; intros [_ H]; apply H; reflexivity).
  split; [exact Hh|]. split; [exact Hm|]. split; [exact Hnow|]. split; [exact Hyear|].
  exact (proj1 getNextRestartTime_next_occurrence 8 30 1704067200000 Hh Hm Hnow Hyear).
Defined.

(** ** [formatTime] *)

Section FormatTime.

Lemma Qfloor_div_60 n : Qfloor (inject_Z n / 60) = n / 60.
Proof.
  unfold Qfloor, Qdiv, Qmult, Qinv, inject_Z. cbn. rewrite Z.mul_1_r. reflexivity.
Qed.

End FormatTime.

(** C4.  On a non-negative integer number of seconds [formatTime] renders
    what the specification describes ([formatTime_spec]): from 60 on, the
    minutes [n / 60] with "minute" or "minutes" (plural unless 1), followed
    by " and ", the remainder [n mod 60] and "second" or "seconds" only when
    the remainder is positive; below 60, the count and "seconds", or the
    literal "1 second".  The five sample renderings are as listed. *)
Theorem formatTime_renders :
  (forall n, 0 <= n -> formatTime (inject_Z n) = formatTime_spec n) /\
  formatTime 5 = "5 seconds" /\
  formatTime 1 = "1 second" /\
  formatTime 90 = "1 minute and 30 seconds" /\
  formatTime 120 = "2 minutes" /\
  formatTime 61 = "1 minute and 1 second".
Proof.
  split; [|repeat split; vm_compute; reflexivity].
  intros n Hn. unfold formatTime, formatTime_spec, unit_name.
  rewrite Qfloor_Z, Qfloor_div_60, Z.rem_mod_nonneg by lia.
  destruct (60 <=? n); [|reflexivity].
  destruct (n / 60 =? 1), (0 <? n mod 60), (n mod 60 =? 1); reflexivity.
Qed.

Lemma formatTime_renders_witness :
  0 <= 3725 /\ formatTime (inject_Z 3725) = formatTime_spec 3725.
Proof.
  split; [lia | apply (proj1 formatTime_renders 3725); lia].
Defined.

(** ** [scheduleRestart] and its timers *)

Section Cascade.
Context {Handler : Type}.
Implicit Types (s : state Handler) (label : string).

Lemma q_gt_div_1000 ms L : q_gt (div_1000 ms) L = (L * 1000 <? ms).
Proof.
  unfold q_gt, div_1000, Qle_bool, Qdiv, Qmult, Qinv, inject_Z. cbn.
  rewrite !Z.mul_1_r, Z.ltb_antisym. reflexivity.
Qed.

Lemma q_ge_div_1000 ms L : q_ge (div_1000 ms) L = (L * 1000 <=? ms).
Proof.
  unfold q_ge, div_1000, Qle_bool, Qdiv, Qmult, Qinv, inject_Z. cbn.
  rewrite !Z.mul_1_r. reflexivity.
Qed.

Lemma Qfloor_div_1000 ms : Qfloor (div_1000 ms) = ms / 1000.
Proof.
  unfold Qfloor, div_1000, Qdiv, Qmult, Qinv, inject_Z. cbn.
  rewrite Z.mul_1_r. reflexivity.
Qed.

Lemma appends_nil s : appends [] s = s.
Proof. destruct s. unfold appends. cbn. now rewrite app_nil_r. Qed.

Lemma appends_appends a b s : appends b (appends a s) = appends (a ++ b) s.
Proof. unfold appends. cbn. now rewrite app_assoc. Qed.

Lemma forEach_emit {A} (items : list A) (test : A -> bool) (ev : A -> event Handler)
    (f : A -> M Handler unit) s :
  (forall x, f x = if test x then emit (ev x) else ret tt) ->
  forEach items f s = (Returned tt, appends (map ev (List.filter test items)) s).
Proof.
  intros Hf. revert s.
  induction items as [|x rest IH]; intros s; cbn [forEach List.filter].
  - cbn. now rewrite appends_nil.
  - unfold bind. rewrite Hf. destruct (test x) eqn:Hx.
    + unfold emit at 1. fold (appends [ev x] s). now rewrite IH, appends_appends.
    + unfold ret at 1. now rewrite IH.
Qed.

End Cascade.

(** ** [sendCommand] *)

Section SendCommand.
Context {Handler : Type}.
Implicit Types (s : state Handler) (cmd : string) (cb : Handler).

Lemma is_open_appends added s : is_open (appends added s) = is_open s.
Proof. reflexivity. Qed.

Lemma readyState_eqb_eq a b : readyState_eqb a b = true <-> a = b.
Proof. destruct a, b; cbn; split; congruence. Qed.

Lemma sendCommand_plain cmd s :
  sendCommand cmd None s = (Returned tt, appends (send_events cmd s) s).
Proof.
  unfold sendCommand, send_events, is_open, appends. unfold_M.
  destruct (readyState_eqb (readyStateOf (client s)) OPEN); cbn; [|reflexivity].
  now rewrite <- app_assoc.
Qed.

Lemma sendCommand_handler cmd cb s :
  is_open s = true ->
  sendCommand cmd (Some cb) s
  = (Returned tt,
     {| client := with_callback cb (client s);
        trace := trace s ++
                 [WsSend (packet_of (lastIdentifier (client s) + 1) cmd);
                  Log info ("[" ++ name (client s) ++ "] Sent command: " ++ cmd)] |}).
Proof.
  unfold is_open. intros Hopen.
  unfold sendCommand, with_callback. unfold_M. rewrite Hopen. cbn.
  now rewrite <- app_assoc.
Qed.

Lemma sendCommand_closed cmd callback s :
  is_open s = false ->
  sendCommand cmd callback s
  = (Returned tt,
     appends [Log error_level ("[" ++ name (client s) ++
                               "] WebSocket not open. Cannot send: " ++ cmd)] s).
Proof.
  unfold is_open. intros Hclosed.
  unfold sendCommand. unfold_M. now rewrite Hclosed.
Qed.

Lemma sendAnnouncement_events text s :
  sendAnnouncement text s
  = (Returned tt, appends (send_events ("say [Notification] " ++ text) s) s).
Proof. unfold sendAnnouncement. apply sendCommand_plain. Qed.

End SendCommand.

(** ** Arming a cascade and firing its timers *)

Section Arming.
Context {Handler : Type}.
Variable new_URL : string -> option URL.
Variable discordWebhook : option string.
Implicit Types (s : state Handler) (label : string).

Lemma scheduleRestart_armed now eventTime label s :
  0 < eventTime - now ->
  scheduleRestart now (Num eventTime) label s
  = (Returned tt,
     appends
       (Log info ("[" ++ name (client s) ++ "] Scheduling " ++ label ++ " at " ++
                  toISOString eventTime ++ " (in " ++
                  toString ((eventTime - now) / 1000) ++ " seconds)")
        :: announcement_timers eventTime (eventTime - now) label
        ++ [SetTimeout (Terminal label) (eventTime - now)]) s).
Proof.
  intros Hms. unfold scheduleRestart.
  unfold bind at 1. unfold this at 1.
  destruct (Z.leb_spec (eventTime - now) 0) as [|_]; [lia|].
  rewrite Qfloor_div_1000.
  unfold bind at 1. unfold logger_info at 1. unfold emit at 1.
  match goal with |- context [Log info ?text] => set (line := Log info text) end.
  fold (appends [line] s).
  unfold bind at 1.
  rewrite (forEach_emit intervals
             (fun L => q_gt (div_1000 (eventTime - now)) L)
             (fun L => SetTimeout (Announce eventTime label L) (eventTime - now - L * 1000)))
    by reflexivity.
  unfold setTimeout, emit. cbn [client trace]. unfold appends. cbn [client trace].
  f_equal. f_equal. rewrite <- !app_assoc. cbn [app]. f_equal. f_equal. f_equal.
  unfold announcement_timers. f_equal.
  apply filter_ext. intros L. apply q_gt_div_1000.
Qed.

Lemma scheduleRestart_stale now eventTime label s :
  eventTime - now <= 0 ->
  scheduleRestart now (Num eventTime) label s
  = (Returned tt,
     appends [Log info ("[" ++ name (client s) ++ "] Event time already passed.")] s).
Proof.
  intros Hms. unfold scheduleRestart. unfold_M.
  destruct (Z.leb_spec (eventTime - now) 0); [reflexivity | lia].
Qed.

Lemma send_events_appends cmd added s :
  send_events cmd (appends added s) = send_events cmd s.
Proof. reflexivity. Qed.

Lemma sendDiscordNotification_events webhook label s :
  sendDiscordNotification new_URL webhook (name (client s)) label "Reconnect in 5 minutes" s
  = (Returned tt,
     appends
       match new_URL webhook with
       | Some u =>
           [HttpsRequest (hostname u) (pathname u ++ search u)
              (embed_payload (name (client s)) label "Reconnect in 5 minutes");
            Log info ("[" ++ name (client s) ++ "] Discord notification sent.")]
       | None =>
           [Log error_level ("[" ++ name (client s) ++
                             "] Failed to send Discord notification: TypeError: Invalid URL")]
       end s).
Proof.
  unfold sendDiscordNotification, appends. unfold_M.
  destruct (new_URL webhook) as [u|]; cbn; [|reflexivity].
  now rewrite <- app_assoc.
Qed.

Lemma fire_Announce now eventTime label L s :
  fire new_URL discordWebhook now (Announce eventTime label L) s
  = (Returned tt,
     if (L - 1) * 1000 <=? eventTime - now then
       appends
         (send_events ("say [Notification] " ++ label ++ " in " ++ formatTime (inject_Z L)) s
          ++ [Log info ("[" ++ name (client s) ++ "] Announced: " ++ label ++ " in " ++
                        formatTime (inject_Z L))]) s
     else s).
Proof.
  unfold fire. unfold bind at 1. unfold this at 1.
  rewrite q_ge_div_1000.
  destruct ((L - 1) * 1000 <=? eventTime - now); [|reflexivity].
  unfold bind. rewrite sendAnnouncement_events.
  unfold logger_info, emit. cbn [client trace appends].
  unfold appends. now rewrite <- app_assoc.
Qed.

Lemma fire_Terminal now label s :
  fire new_URL discordWebhook now (Terminal label) s
  = (Returned tt,
     appends
       (webhook_events new_URL discordWebhook label s
        ++ send_events "say [Notification] Restarting now..." s
        ++ send_events "server.save" s
        ++ [SetTimeout Restart 2000;
            Log info ("[" ++ name (client s) ++ "] Executed restart")]) s).
Proof.
  unfold fire. unfold bind at 1. unfold this at 1.
  assert (Hhook :
    match globalDiscordWebhook discordWebhook with
    | Some webhook =>
        sendDiscordNotification new_URL webhook (name (client s)) label
          "Reconnect in 5 minutes"
    | None => ret tt
    end s = (Returned tt, appends (webhook_events new_URL discordWebhook label s) s)).
  { unfold webhook_events. destruct (globalDiscordWebhook discordWebhook) as [w|].
    - apply sendDiscordNotification_events.
    - unfold ret. now rewrite appends_nil. }
  unfold bind at 1. rewrite Hhook.
  unfold bind at 1. rewrite sendAnnouncement_events.
  unfold bind at 1. unfold saveServer. rewrite sendCommand_plain.
  unfold bind, setTimeout, logger_info, emit.
  rewrite !send_events_appends.
  unfold appends. cbn [client trace]. f_equal. f_equal.
  now rewrite <- !app_assoc.
Qed.

Lemma fire_Restart now s :
  fire new_URL discordWebhook now Restart s
  = (Returned tt, appends (send_events "restart 0" s) s).
Proof.
  unfold fire. unfold bind at 1. unfold this at 1. apply sendCommand_plain.
Qed.

Lemma q_gt_spec q n : q_gt q n = true <-> (inject_Z n < q)%Q.
Proof.
  unfold q_gt. rewrite negb_true_iff, <- not_true_iff_false, Qle_bool_iff.
  split; [apply Qnot_le_lt | apply Qlt_not_le].
Qed.

Lemma q_ge_spec q n : q_ge q n = true <-> (inject_Z n <= q)%Q.
Proof. unfold q_ge. apply Qle_bool_iff. Qed.

Lemma announcement_timers_In eventTime ms label eventTime' label' L d :
  In (SetTimeout (Announce eventTime' label' L) d)
     (announcement_timers (Handler := Handler) eventTime ms label)
  <-> eventTime' = eventTime /\ label' = label /\ In L intervals /\
      (inject_Z L < div_1000 ms)%Q /\ d = ms - L * 1000.
Proof.
  unfold announcement_timers. rewrite in_map_iff. split.
  - intros (L0 & Heq & Hin). apply filter_In in Hin as [Hin Hlt].
    injection Heq as -> -> -> ->.
    rewrite <- q_gt_div_1000 in Hlt. apply q_gt_spec in Hlt. auto.
  - intros (-> & -> & Hin & Hlt & ->). exists L. split; [reflexivity|].
    apply filter_In. split; [exact Hin|].
    rewrite <- q_gt_div_1000. now apply q_gt_spec.
Qed.

Lemma announcement_timers_no_Terminal eventTime ms label label' d :
  ~ In (SetTimeout (Terminal label') d)
       (announcement_timers (Handler := Handler) eventTime ms label).
Proof.
  unfold announcement_timers. rewrite in_map_iff. intros (L & Heq & _). discriminate.
Qed.

End Arming.

(** C5.  When the event instant is not after the clock reading at arm time,
    [scheduleRestart] returns having appended one log line, "Event time
    already passed.", and nothing else: no timer is set, no frame is sent,
    and the client is as before. *)
Theorem scheduleRestart_already_passed
    {Handler} (s : state Handler) (now eventTime : Z) (label : string) :
  eventTime - now <= 0 ->
  scheduleRestart now (Num eventTime) label s
  = (Returned tt,
     {| client := client s;
        trace := trace s ++
                 [Log info ("[" ++ name (client s) ++ "] Event time already passed.")] |}).
Proof. apply scheduleRestart_stale. Qed.

Lemma scheduleRestart_already_passed_witness :
  5000 - 9000 <= 0 /\
  scheduleRestart 9000 (Num 5000) "Daily restart" (new_RconClient (Handler := nat) "srv" "host" "28016" "pw")
  = (Returned tt,
     {| client := client (new_RconClient "srv" "host" "28016" "pw");
        trace := trace (new_RconClient "srv" "host" "28016" "pw") ++
                 [Log info "[srv] Event time already passed."] |}).
Proof.
  split; [lia|].
  apply (scheduleRestart_already_passed
           (new_RconClient (Handler := nat) "srv" "host" "28016" "pw") 9000 5000 "Daily restart").
  lia.
Defined.

(** C2.  Arming: the announcement timers [scheduleRestart] sets are exactly
    those for the lead times [L] of [intervals] with
    [msUntilRestart / 1000 > L], each with delay [msUntilRestart - L * 1000].
    Firing: the timer's callback sends the announcement
    "{label} in {formatTime(L)}" through [sendAnnouncement] and logs it when
    the remaining time is at least [L - 1] seconds, and otherwise leaves the
    state as it was (nothing sent, nothing logged, no timer set).  On an
    open socket the announcement is the frame
    "say [Notification] {label} in {formatTime(L)}".  Arming 40 seconds
    ahead sets announcement timers for 30, 10 and 5 only. *)
Theorem scheduleRestart_announcements
    {Handler} (new_URL : string -> option URL) (discordWebhook : option string)
    (s : state Handler) (label : string) :
  intervals = [1800; 1200; 900; 600; 300; 120; 60; 30; 10; 5] /\
  (forall now eventTime,
      exists added,
        scheduleRestart now (Num eventTime) label s = (Returned tt, appends added s) /\
        forall eventTime' label' L delay,
          In (SetTimeout (Announce eventTime' label' L) delay) added
          <-> eventTime' = eventTime /\ label' = label /\ In L intervals /\
              (inject_Z L < inject_Z (eventTime - now) / 1000)%Q /\
              delay = (eventTime - now) - L * 1000) /\
  (forall now eventTime L,
      let remaining := (inject_Z (eventTime - now) / 1000)%Q in
      let text := label ++ " in " ++ formatTime (inject_Z L) in
      ((inject_Z (L - 1) <= remaining)%Q ->
       fire new_URL discordWebhook now (Announce eventTime label L) s
       = (Returned tt,
          appends (send_events ("say [Notification] " ++ text) s ++
                   [Log info ("[" ++ name (client s) ++ "] Announced: " ++ text)]) s)) /\
      (~ (inject_Z (L - 1) <= remaining)%Q ->
       fire new_URL discordWebhook now (Announce eventTime label L) s = (Returned tt, s))) /\
  (forall cmd,
      is_open s = true ->
      send_events cmd s
      = [WsSend (JObject [("Identifier", JNumber (-1)); ("Message", JString cmd);
                          ("Name", JString "NodeRcon")]);
         Log info ("[" ++ name (client s) ++ "] Sent command: " ++ cmd)]) /\
  (forall now,
      exists line,
        scheduleRestart now (Num (now + 40 * 1000)) label s
        = (Returned tt,
           appends [Log info line;
                    SetTimeout (Announce (now + 40 * 1000) label 30) 10000;
                    SetTimeout (Announce (now + 40 * 1000) label 10) 30000;
                    SetTimeout (Announce (now + 40 * 1000) label 5) 35000;
                    SetTimeout (Terminal label) 40000] s)).
Proof.
  split; [reflexivity|]. split; [|split; [|split]].
  - intros now eventTime.
    destruct (Z_lt_le_dec 0 (eventTime - now)) as [Hms|Hms].
    + eexists. split; [apply scheduleRestart_armed; exact Hms|].
      intros e' l' L d.
      change (inject_Z (eventTime - now) / 1000)%Q with (div_1000 (eventTime - now)).
      rewrite <- (announcement_timers_In (Handler := Handler)).
      cbn [In]. rewrite in_app_iff. cbn [In].
      split; [intros [H|[H|[H|[]]]]; try discriminate; exact H | auto].
    + eexists. split; [apply scheduleRestart_stale; exact Hms|].
      intros e' l' L d. cbn [In]. split.
      * intros [H|[]]; discriminate.
      * intros (_ & _ & Hin & Hlt & _). exfalso.
        change (inject_Z (eventTime - now) / 1000)%Q with (div_1000 (eventTime - now)) in Hlt.
        apply (proj2 (q_gt_spec _ _)) in Hlt.
        rewrite q_gt_div_1000 in Hlt. apply Z.ltb_lt in Hlt.
        unfold intervals in Hin. cbn [In] in Hin. lia.
  - intros now eventTime L remaining text. subst remaining text.
    change (inject_Z (eventTime - now) / 1000)%Q with (div_1000 (eventTime - now)).
    rewrite <- !q_ge_spec, q_ge_div_1000.
    rewrite fire_Announce.
    destruct ((L - 1) * 1000 <=? eventTime - now); split; intros H;
      try reflexivity; congruence.
  - intros cmd Hopen. unfold send_events. now rewrite Hopen.
  - intros now. eexists.
    rewrite scheduleRestart_armed by lia.
    replace (now + 40 * 1000 - now) with 40000 by lia. reflexivity.
Qed.

Lemma scheduleRestart_announcements_witness :
  (inject_Z (30 - 1) <= inject_Z (41000 - 11500) / 1000)%Q /\
  fire (fun _ => None) None 11500 (Announce 41000 "Daily restart" 30) connected
  = (Returned tt,
     appends (send_events ("say [Notification] " ++ "Daily restart" ++ " in " ++
                           formatTime (inject_Z 30)) connected ++
              [Log info ("[" ++ name (client connected) ++ "] Announced: " ++
                         "Daily restart" ++ " in " ++ formatTime (inject_Z 30))])
             connected).
Proof.
  assert (H : (inject_Z (30 - 1) <= inject_Z (41000 - 11500) / 1000)%Q)
    by (unfold Qle; cbn; lia).
  split; [exact H|].
  exact (proj1 (proj1 (proj2 (proj2
           (scheduleRestart_announcements (fun _ => None) None connected "Daily restart")))
           11500 41000 30) H).
Defined.

(** C3.  Arming a cascade for an instant strictly in the future sets, last
    and once, the terminal timer with delay [msUntilRestart].  Its callback
    does, in this order: the webhook notification when a webhook is
    configured (an embed titled "{serverName} - {label}" with the description
    "Reconnect in 5 minutes", posted when the address parses and logged as
    failed otherwise); the announcement "Restarting now..."; the command
    "server.save"; a timer of 2000 milliseconds whose callback sends
    "restart 0"; and the log line "Executed restart". *)
Theorem scheduleRestart_terminal
    {Handler} (new_URL : string -> option URL) (discordWebhook : option string)
    (s : state Handler) (label : string) :
  (forall now eventTime,
      0 < eventTime - now ->
      exists earlier,
        scheduleRestart now (Num eventTime) label s
        = (Returned tt,
           appends (earlier ++ [SetTimeout (Terminal label) (eventTime - now)]) s) /\
        forall label' delay, ~ In (SetTimeout (Terminal label') delay) earlier) /\
  (forall now,
      fire new_URL discordWebhook now (Terminal label) s
      = (Returned tt,
         appends (webhook_events new_URL discordWebhook label s ++
                  send_events "say [Notification] Restarting now..." s ++
                  send_events "server.save" s ++
                  [SetTimeout Restart 2000;
                   Log info ("[" ++ name (client s) ++ "] Executed restart")]) s)) /\
  (forall now,
      fire new_URL discordWebhook now Restart s
      = (Returned tt, appends (send_events "restart 0" s) s)) /\
  (forall webhook u,
      discordWebhook = Some webhook -> webhook <> "" -> new_URL webhook = Some u ->
      is_open s = true ->
      forall now,
        fire new_URL discordWebhook now (Terminal label) s
        = (Returned tt,
           appends
             [HttpsRequest (hostname u) (pathname u ++ search u)
                (JObject [("embeds",
                           JArray [JObject [("title", JString (name (client s) ++ " - " ++ label));
                                            ("description", JString "Reconnect in 5 minutes");
                                            ("color", JNumber 16711680)]])]);
              Log info ("[" ++ name (client s) ++ "] Discord notification sent.");
              WsSend (packet_of (-1) "say [Notification] Restarting now...");
              Log info ("[" ++ name (client s) ++
                        "] Sent command: say [Notification] Restarting now...");
              WsSend (packet_of (-1) "server.save");
              Log info ("[" ++ name (client s) ++ "] Sent command: server.save");
              SetTimeout Restart 2000;
              Log info ("[" ++ name (client s) ++ "] Executed restart")] s)) /\
  ((discordWebhook = None \/ discordWebhook = Some "") ->
   webhook_events new_URL discordWebhook label s = []).
Proof.
  split; [|split; [|split; [|split]]].
  - intros now eventTime Hms. eexists. split.
    + rewrite scheduleRestart_armed by exact Hms.
      rewrite app_comm_cons. reflexivity.
    + intros label' delay [H|H]; [discriminate|].
      exact (announcement_timers_no_Terminal _ _ _ _ _ H).
  - intros now. apply fire_Terminal.
  - intros now. apply fire_Restart.
  - intros webhook u Hcfg Hne Hurl Hopen now.
    rewrite fire_Terminal. unfold webhook_events, globalDiscordWebhook, send_events.
    rewrite Hcfg, Hopen.
    destruct webhook as [|c w]; [congruence|]. now rewrite Hurl.
  - intros [->| ->]; reflexivity.
Qed.

Lemma scheduleRestart_terminal_witness :
  0 < 41000 - 1000 /\
  exists earlier,
    scheduleRestart 1000 (Num 41000) "Daily restart" connected
    = (Returned tt,
       appends (earlier ++ [SetTimeout (Terminal "Daily restart") (41000 - 1000)]) connected) /\
    forall label' delay, ~ In (SetTimeout (Terminal label') delay) earlier.
Proof.
  split; [lia|].
  apply (proj1 (scheduleRestart_terminal (fun _ => None) None connected "Daily restart")
           1000 41000).
  lia.
Defined.

(** ** The inbound listener and the pending-callback table *)

Section Listener.
Context {Handler : Type}.
Variable new_URL : string -> option URL.
Variable discordWebhook : option string.
Implicit Types (s : state Handler) (c : RconClient Handler) (k : Z).

Lemma on_message_unparsable data s :
  on_message (Unparsable data) s
  = (Returned tt,
     appends [Log error_level ("[" ++ name (client s) ++ "] Error parsing message: " ++ data)] s).
Proof. reflexivity. Qed.

Lemma on_message_null data s :
  on_message (Parsed data MsgNull) s
  = (Thrown (TypeError "Cannot read properties of null (reading 'Identifier')"), s).
Proof. reflexivity. Qed.

Lemma on_message_not_object data msg s :
  match msg with MsgNull | MsgObject _ _ => False | _ => True end ->
  on_message (Parsed data msg) s = (Returned tt, s).
Proof. destruct msg; intros []; reflexivity. Qed.

Lemma on_message_no_identifier data others s :
  on_message (Parsed data (MsgObject None others)) s = (Returned tt, s).
Proof. reflexivity. Qed.

Lemma on_message_low data k others s :
  k <= 1000 -> on_message (Parsed data (MsgObject (Some k) others)) s = (Returned tt, s).
Proof.
  intros Hk. unfold on_message. unfold_M. cbn [truthy gt_1000].
  destruct (Z.ltb_spec 1000 k); [lia|]. now rewrite andb_false_r.
Qed.

Lemma on_message_unknown data k others s :
  callbacks (client s) !! k = None ->
  on_message (Parsed data (MsgObject (Some k) others)) s = (Returned tt, s).
Proof.
  intros Hk. unfold on_message. unfold_M. rewrite Hk.
  now destruct (truthy (Some k) && gt_1000 (Some k)).
Qed.

Lemma on_message_known data k others cb s :
  1000 < k -> callbacks (client s) !! k = Some cb ->
  on_message (Parsed data (MsgObject (Some k) others)) s
  = (Returned tt,
     {| client := without_callback k (client s);
        trace := trace s ++ [Invoke cb (MsgObject (Some k) others)] |}).
Proof.
  intros Hk Hcb. unfold on_message. unfold_M. cbn [truthy gt_1000]. rewrite Hcb.
  destruct (Z.ltb_spec 1000 k); [|lia].
  destruct (Z.eqb_spec k 0); [lia|]. reflexivity.
Qed.

(** Every step changes the client in one of the four ways of
    [client_step]. *)
Lemma exec_client_step o s :
  client_step (client s) (client (snd (exec new_URL discordWebhook o s))).
Proof.
  destruct o as [cmd [cb|]|f| | |err|rs|now eventTime label|now callback]; cbn [exec].
  - destruct (is_open s) eqn:Hopen.
    + rewrite sendCommand_handler by exact Hopen. apply step_filed.
    + rewrite sendCommand_closed by exact Hopen. apply step_same.
  - rewrite sendCommand_plain. apply step_same.
  - destruct f as [data|data [|b|z|text|items|[k|] others]]; try apply step_same.
    destruct (callbacks (client s) !! k) as [cb|] eqn:Hcb.
    + destruct (Z_lt_le_dec 1000 k) as [Hk|Hk].
      * rewrite (on_message_known _ _ _ cb) by assumption. apply step_removed.
      * rewrite on_message_low by exact Hk. apply step_same.
    + rewrite on_message_unknown by exact Hcb. apply step_same.
  - apply step_same.
  - apply step_same.
  - apply step_same.
  - apply step_moved.
  - destruct eventTime as [eventTime|]; [|apply step_same].
    destruct (Z_lt_le_dec 0 (eventTime - now)) as [Hms|Hms].
    + rewrite scheduleRestart_armed by exact Hms. apply step_same.
    + rewrite scheduleRestart_stale by exact Hms. apply step_same.
  - destruct callback as [eventTime label L|label|].
    + rewrite fire_Announce.
      destruct ((L - 1) * 1000 <=? eventTime - now); apply step_same.
    + rewrite fire_Terminal. apply step_same.
    + rewrite fire_Restart. apply step_same.
Qed.

Lemma client_step_counter c c' :
  client_step c c' -> lastIdentifier c <= lastIdentifier c'.
Proof. intros []; cbn; lia. Qed.

Lemma client_step_bounds c c' :
  client_step c c' -> counter_bounds c -> counter_bounds c'.
Proof.
  intros Hstep [Hlo Hkeys]. destruct Hstep as [|rs|cb|k0]; split; cbn; try lia; try assumption.
  - intros k Hk. destruct (decide (lastIdentifier c + 1 = k)) as [<-|Hne]; [lia|].
    rewrite lookup_insert_ne in Hk by exact Hne. specialize (Hkeys k Hk). lia.
  - intros k Hk. apply Hkeys.
    destruct (decide (k0 = k)) as [->|Hne].
    + rewrite lookup_delete_eq in Hk. destruct Hk; discriminate.
    + now rewrite lookup_delete_ne in Hk by exact Hne.
Qed.

Lemma client_step_retired k c c' :
  client_step c c' -> retired k c -> retired k c'.
Proof.
  intros Hstep [Hnone Hle]. destruct Hstep as [|rs|cb|k0]; split; cbn; try lia; try assumption.
  - rewrite lookup_insert_ne by lia. exact Hnone.
  - destruct (decide (k0 = k)) as [->|Hne].
    + apply lookup_delete_eq.
    + now rewrite lookup_delete_ne by exact Hne.
Qed.

Lemma run_counter ops s :
  lastIdentifier (client s) <= lastIdentifier (client (run new_URL discordWebhook ops s)).
Proof.
  revert s. induction ops as [|o rest IH]; intros s; cbn [run]; [lia|].
  pose proof (client_step_counter _ _ (exec_client_step o s)).
  specialize (IH (snd (exec new_URL discordWebhook o s))). lia.
Qed.

Lemma run_bounds ops s :
  counter_bounds (client s) -> counter_bounds (client (run new_URL discordWebhook ops s)).
Proof.
  revert s. induction ops as [|o rest IH]; intros s H; cbn [run]; [exact H|].
  apply IH. exact (client_step_bounds _ _ (exec_client_step o s) H).
Qed.

Lemma run_retired k ops s :
  retired k (client s) -> retired k (client (run new_URL discordWebhook ops s)).
Proof.
  revert s. induction ops as [|o rest IH]; intros s H; cbn [run]; [exact H|].
  apply IH. exact (client_step_retired k _ _ (exec_client_step o s) H).
Qed.

Lemma reachable_bounds s :
  reachable new_URL discordWebhook s -> counter_bounds (client s).
Proof.
  intros (serverName & host & port & password & ops & ->).
  apply run_bounds. split; cbn; [lia|].
  intros k Hk. rewrite lookup_empty in Hk. destruct Hk; discriminate.
Qed.

End Listener.

(** C7.  The listener calls a callback only for a frame that parses, whose
    identifier is present, above 1000 and a key of the pending-callback
    table: it then calls the stored callback with the parsed message and
    removes the entry.  For every other frame (parse failure, identifier
    absent, identifier at most 1000, identifier not in the table, or any
    other frame that does not correlate) no callback is called and the
    client, with its table, is as it was. *)
Theorem on_message_dispatch {Handler} (s : state Handler) :
  (forall f k cb msg,
      correlated s f k cb msg ->
      on_message f s
      = (Returned tt,
         {| client := without_callback k (client s);
            trace := trace s ++ [Invoke cb msg] |}) /\
      callbacks (without_callback k (client s)) !! k = None) /\
  (forall data,
      on_message (Unparsable data) s
      = (Returned tt,
         appends [Log error_level ("[" ++ name (client s) ++
                                   "] Error parsing message: " ++ data)] s)) /\
  (forall data others,
      on_message (Parsed data (MsgObject None others)) s = (Returned tt, s)) /\
  (forall data k others,
      k <= 1000 ->
      on_message (Parsed data (MsgObject (Some k) others)) s = (Returned tt, s)) /\
  (forall data k others,
      callbacks (client s) !! k = None ->
      on_message (Parsed data (MsgObject (Some k) others)) s = (Returned tt, s)) /\
  (forall f,
      (forall k cb msg, ~ correlated s f k cb msg) ->
      exists result added,
        on_message f s = (result, appends added s) /\
        forall cb msg, ~ In (Invoke cb msg) added).
Proof.
  split; [|split; [|split; [|split; [|split]]]].
  - intros f k cb msg (data & others & -> & -> & Hk & Hcb). split.
    + now apply on_message_known.
    + apply lookup_delete_eq.
  - intros data. apply on_message_unparsable.
  - intros data others. apply on_message_no_identifier.
  - intros data k others Hk. now apply on_message_low.
  - intros data k others Hk. now apply on_message_unknown.
  - intros f Hnot.
    assert (Hnone : forall cb msg, ~ In (Invoke (Handler := Handler) cb msg) [])
      by (intros cb msg []).
    destruct f as [data|data [|b|z|text|items|[k|] others]];
      try (exists (Returned tt), []; rewrite appends_nil; split; [reflexivity | exact Hnone]).
    + eexists _, _. split; [apply on_message_unparsable|].
      intros cb msg [H|[]]. discriminate.
    + exists (Thrown (TypeError "Cannot read properties of null (reading 'Identifier')")), [].
      rewrite appends_nil. split; [reflexivity | exact Hnone].
    + exists (Returned tt), []. rewrite appends_nil. split; [|exact Hnone].
      destruct (callbacks (client s) !! k) as [cb|] eqn:Hcb.
      * destruct (Z_lt_le_dec 1000 k) as [Hk|Hk].
        -- exfalso. apply (Hnot k cb (MsgObject (Some k) others)).
           now exists data, others.
        -- now apply on_message_low.
      * now apply on_message_unknown.
Qed.

Lemma on_message_dispatch_witness :
  correlated awaiting (Parsed "{}" (MsgObject (Some 1001) [])) 1001 7%nat
             (MsgObject (Some 1001) []) /\
  on_message (Parsed "{}" (MsgObject (Some 1001) [])) awaiting
  = (Returned tt,
     {| client := without_callback 1001 (client awaiting);
        trace := trace awaiting ++ [Invoke 7%nat (MsgObject (Some 1001) [])] |}).
Proof.
  assert (H : correlated awaiting (Parsed "{}" (MsgObject (Some 1001) [])) 1001 7%nat
                         (MsgObject (Some 1001) [])).
  { exists "{}", []. split; [reflexivity|]. split; [reflexivity|].
    split; [lia | vm_compute; reflexivity]. }
  split; [exact H|].
  exact (proj1 (proj1 (on_message_dispatch awaiting) _ 1001 7%nat _ H)).
Defined.

(** C8.  While the socket is not open, [sendCommand], with or without a
    reply handler, returns normally having logged one error and done nothing
    else: no frame is sent, and the client (its callback table and its
    identifier counter included) is unchanged. *)
Theorem sendCommand_not_open
    {Handler} (s : state Handler) (cmd : string) (callback : option Handler) :
  readyStateOf (client s) <> OPEN ->
  sendCommand cmd callback s
  = (Returned tt,
     {| client := client s;
        trace := trace s ++
                 [Log error_level ("[" ++ name (client s) ++
                                   "] WebSocket not open. Cannot send: " ++ cmd)] |}).
Proof.
  intros Hclosed. apply sendCommand_closed. unfold is_open.
  destruct (readyState_eqb (readyStateOf (client s)) OPEN) eqn:H; [|reflexivity].
  now apply readyState_eqb_eq in H.
Qed.

Lemma sendCommand_not_open_witness :
  readyStateOf (client (new_RconClient (Handler := nat) "srv" "host" "28016" "pw")) <> OPEN /\
  sendCommand "status" (Some 7%nat) (new_RconClient "srv" "host" "28016" "pw")
  = (Returned tt,
     {| client := client (new_RconClient "srv" "host" "28016" "pw");
        trace := trace (new_RconClient "srv" "host" "28016" "pw") ++
                 [Log error_level ("[" ++ "srv" ++ "] WebSocket not open. Cannot send: " ++
                                   "status")] |}).
Proof.
  assert (H : readyStateOf (client (new_RconClient (Handler := nat) "srv" "host" "28016" "pw"))
              <> OPEN) by discriminate.
  split; [exact H|].
  exact (sendCommand_not_open (new_RconClient "srv" "host" "28016" "pw") "status"
           (Some 7%nat) H).
Defined.

(** C6.  On an open socket, a send with a reply handler increments the
    counter, uses the new value as the frame's identifier and files the
    handler under it before the frame is handed to the socket; a send
    without a handler uses the identifier -1 and leaves the counter and the
    table alone.  The frame is the object with the fields "Identifier",
    "Message" (the command text) and "Name" ("NodeRcon").  On a client made
    by the constructor every identifier handed out is above 1000, and of two
    sends with handlers, whatever happens in between, the later one gets the
    larger identifier. *)
Theorem sendCommand_identifiers
    {Handler} (new_URL : string -> option URL) (discordWebhook : option string)
    (s : state Handler) :
  (forall cmd cb,
      is_open s = true ->
      let identifier := lastIdentifier (client s) + 1 in
      sendCommand cmd (Some cb) s
      = (Returned tt,
         {| client := with_callback cb (client s);
            trace := trace s ++
                     [WsSend (JObject [("Identifier", JNumber identifier);
                                       ("Message", JString cmd);
                                       ("Name", JString "NodeRcon")]);
                      Log info ("[" ++ name (client s) ++ "] Sent command: " ++ cmd)] |}) /\
      callbacks (with_callback cb (client s)) !! identifier = Some cb /\
      lastIdentifier (with_callback cb (client s)) = identifier /\
      exists registered,
        register cb s = (Returned identifier, registered) /\
        callbacks (client registered) !! identifier = Some cb /\
        trace registered = trace s /\
        sendCommand cmd (Some cb) s = transmit identifier cmd registered) /\
  (forall cmd,
      is_open s = true ->
      sendCommand cmd None s
      = (Returned tt,
         {| client := client s;
            trace := trace s ++
                     [WsSend (JObject [("Identifier", JNumber (-1));
                                       ("Message", JString cmd);
                                       ("Name", JString "NodeRcon")]);
                      Log info ("[" ++ name (client s) ++ "] Sent command: " ++ cmd)] |})) /\
  (reachable new_URL discordWebhook s ->
   forall cmd1 cb1 ops cmd2 cb2,
     let sent1 := snd (sendCommand cmd1 (Some cb1) s) in
     let later := run new_URL discordWebhook ops sent1 in
     let sent2 := snd (sendCommand cmd2 (Some cb2) later) in
     is_open s = true -> is_open later = true ->
     exists id1 id2,
       trace sent1 = (trace s ++
                      [WsSend (packet_of id1 cmd1);
                       Log info ("[" ++ name (client s) ++ "] Sent command: " ++ cmd1)])%list /\
       trace sent2 = (trace later ++
                      [WsSend (packet_of id2 cmd2);
                       Log info ("[" ++ name (client later) ++ "] Sent command: " ++ cmd2)])%list /\
       1000 < id1 /\ id1 < id2).
Proof.
  split; [|split].
  - intros cmd cb Hopen identifier. split; [now apply sendCommand_handler|].
    split; [apply lookup_insert_eq|]. split; [reflexivity|].
    exists {| client := with_callback cb (client s); trace := trace s |}.
    split; [reflexivity|]. split; [apply lookup_insert_eq|].
    split; [reflexivity|].
    unfold sendCommand, is_open in *. unfold bind at 1. unfold this at 1.
    rewrite Hopen. reflexivity.
  - intros cmd Hopen. rewrite sendCommand_plain. unfold send_events. now rewrite Hopen.
  - intros Hreach cmd1 cb1 ops cmd2 cb2 sent1 later sent2 Hopen1 Hopen2.
    exists (lastIdentifier (client s) + 1), (lastIdentifier (client later) + 1).
    pose proof (reachable_bounds _ _ _ Hreach) as [Hlo _].
    pose proof (run_counter new_URL discordWebhook ops sent1) as Hmono.
    fold later in Hmono.
    subst sent1 sent2. rewrite (sendCommand_handler cmd2) by exact Hopen2.
    rewrite (sendCommand_handler cmd1) in * by exact Hopen1.
    cbn [snd trace client with_callback lastIdentifier] in *.
    repeat split; lia.
Qed.

Lemma sendCommand_identifiers_witness :
  is_open connected = true /\
  sendCommand "status" None connected
  = (Returned tt,
     {| client := client connected;
        trace := trace connected ++
                 [WsSend (JObject [("Identifier", JNumber (-1));
                                   ("Message", JString "status");
                                   ("Name", JString "NodeRcon")]);
                  Log info ("[" ++ name (client connected) ++ "] Sent command: " ++
                            "status")] |}).
Proof.
  assert (H : is_open connected = true) by reflexivity.
  split; [exact H|].
  exact (proj1 (proj2 (sendCommand_identifiers (fun _ => None) None connected)) "status" H).
Defined.

(** C10.  On a client made by the constructor, once an inbound frame with
    identifier [I] has had its pending callback called, the entry is gone and
    stays gone: whatever happens afterwards (sends with or without handlers,
    other frames, socket events, timers), a later frame carrying [I] calls no
    callback and leaves the state, with the table, as it is. *)
Theorem on_message_at_most_once
    {Handler} (new_URL : string -> option URL) (discordWebhook : option string)
    (s : state Handler) (I : Z) (cb : Handler) (data : string)
    (others : list (string * json)) :
  reachable new_URL discordWebhook s ->
  callbacks (client s) !! I = Some cb ->
  let delivered := snd (on_message (Parsed data (MsgObject (Some I) others)) s) in
  trace delivered = (trace s ++ [Invoke cb (MsgObject (Some I) others)])%list /\
  callbacks (client delivered) !! I = None /\
  forall ops data' others',
    let later := run new_URL discordWebhook ops delivered in
    callbacks (client later) !! I = None /\
    on_message (Parsed data' (MsgObject (Some I) others')) later = (Returned tt, later).
Proof.
  intros Hreach Hcb delivered.
  pose proof (reachable_bounds _ _ _ Hreach) as [_ Hkeys].
  specialize (Hkeys I ltac:(rewrite Hcb; eauto)).
  assert (Hdel : on_message (Parsed data (MsgObject (Some I) others)) s
                 = (Returned tt,
                    {| client := without_callback I (client s);
                       trace := trace s ++ [Invoke cb (MsgObject (Some I) others)] |}))
    by (apply on_message_known; [lia | exact Hcb]).
  subst delivered. rewrite Hdel. cbn [snd trace client].
  assert (Hret : retired I (without_callback I (client s))).
  { split; cbn; [apply lookup_delete_eq | lia]. }
  split; [reflexivity|]. split; [exact (proj1 Hret)|].
  intros ops data' others'.
  pose proof (run_retired new_URL discordWebhook I ops
                {| client := without_callback I (client s);
                   trace := trace s ++ [Invoke cb (MsgObject (Some I) others)] |} Hret)
    as [Hnone _].
  split; [exact Hnone|].
  now apply on_message_unknown.
Qed.

Lemma on_message_at_most_once_witness :
  reachable (fun _ => None) None awaiting /\
  callbacks (client awaiting) !! 1001 = Some 7%nat /\
  trace (snd (on_message (Parsed "{}" (MsgObject (Some 1001) [])) awaiting))
  = (trace awaiting ++ [Invoke 7%nat (MsgObject (Some 1001) [])])%list.
Proof.
  assert (Hreach : reachable (fun _ => None) None awaiting).
  { exists "srv", "host", "28016", "pw",
      [SocketState OPEN; SocketOpen; Send "status" (Some 7%nat)]. reflexivity. }
  assert (Hcb : callbacks (client awaiting) !! 1001 = Some 7%nat)
    by (vm_compute; reflexivity).
  split; [exact Hreach|]. split; [exact Hcb|].
  exact (proj1 (on_message_at_most_once (fun _ => None) None awaiting 1001 7%nat "{}" []
                  Hreach Hcb)).
Defined.

(** C9.  The listener's [try] covers [JSON.parse] only.  A frame whose text
    is the JSON literal [null] parses, and reading [Identifier] from the
    result throws a [TypeError] out of the listener; a frame that does not
    parse, by contrast, is caught and logged. *)
Theorem on_message_null_frame_throws {Handler} (s : state Handler) :
  on_message (Parsed "null" MsgNull) s
  = (Thrown (TypeError "Cannot read properties of null (reading 'Identifier')"), s) /\
  on_message (Unparsable "nul") s
  = (Returned tt,
     appends [Log error_level ("[" ++ name (client s) ++ "] Error parsing message: nul")] s).
Proof. split; reflexivity. Qed.

(** * Further properties *)

Import Coverage.

(** ** More on [getNextRestartTime] *)

Section NextRestartTimeMore.

Lemma getNextRestartTime_value h m now :
  0 <= h < 100 -> 0 <= m < 100 ->
  - maxTime <= now <= maxTime - msPerDay -> ~ (0 <= YearFromTime now <= 99) ->
  today_at now h m <= maxTime ->
  getNextRestartTime (hhmm h m) now = Num (next_from (today_at now h m) now).
Proof.
  intros Hh Hm Hnow Hyear Htoday.
  pose proof (today_at_floor now h m ltac:(lia) ltac:(lia) ltac:(lia)) as Hfloor.
  assert (Hday : msPerDay = 86400000) by reflexivity.
  unfold getNextRestartTime, next_from.
  rewrite split_hhmm by lia. cbn [map element nth newDate].
  rewrite !Number_two_digits by lia.
  rewrite (TimeClip_in_range now) by lia.
  rewrite DateUTC_today by exact Hyear.
  rewrite (TimeClip_in_range (today_at now h m)) by lia.
  cbn [newDate]. rewrite (TimeClip_in_range (today_at now h m)) by lia.
  cbn [date_le getTime num_add newDate].
  destruct (Z.leb_spec (today_at now h m) now); [|reflexivity].
  apply TimeClip_in_range. lia.
Qed.

Lemma today_at_ceiling now h m :
  0 <= h < 24 -> 0 <= m < 60 -> now < maxTime ->
  today_at now h m < maxTime /\ today_at now h m < now + msPerDay.
Proof.
  intros Hh Hm Hnow.
  unfold today_at, MakeDate, MakeTime, Day, maxTime, msPerDay, msPerHour, msPerMinute,
    msPerSecond in *.
  split; Z.div_mod_to_equations; lia.
Qed.

Lemma today_at_next_day now h m :
  today_at (now + msPerDay) h m = today_at now h m + msPerDay.
Proof.
  unfold today_at, MakeDate, Day.
  replace (now + msPerDay) with (now + 1 * msPerDay) by lia.
  rewrite Z.div_add by (unfold msPerDay; lia). lia.
Qed.

Lemma split_without_separator sep s :
  contains sep s = false -> split sep s = [s].
Proof.
  induction s as [|c rest IH]; cbn [contains split]; intros H; [reflexivity|].
  apply orb_false_iff in H as [Hc Hrest].
  rewrite Hc, (IH Hrest). reflexivity.
Qed.

End NextRestartTimeMore.

(** X1.  For a valid zero-padded ["HH:MM"] the instant [getNextRestartTime]
    returns is at most one day after [now], so the delay of the cascade's
    last timer, taken from it, never exceeds 86400000 milliseconds. *)
Theorem getNextRestartTime_within_a_day h m now :
  0 <= h < 24 -> 0 <= m < 60 -> 0 <= now <= maxTime - msPerDay ->
  exists next,
    getNextRestartTime (hhmm h m) now = Num next /\
    now < next <= now + 86400000.
Proof.
  intros Hh Hm Hnow.
  assert (Hday : msPerDay = 86400000) by reflexivity.
  assert (Hhour : msPerHour = 3600000) by reflexivity.
  assert (Hmin : msPerMinute = 60000) by reflexivity.
  pose proof (YearFromTime_epoch now ltac:(lia)) as Hyear.
  pose proof (today_at_bounds now h m Hh Hm) as Hb.
  pose proof (today_at_ceiling now h m Hh Hm ltac:(lia)) as [Hc1 Hc2].
  exists (next_from (today_at now h m) now). split.
  - apply getNextRestartTime_value; lia.
  - unfold next_from. destruct (Z.leb_spec (today_at now h m) now); lia.
Qed.

Lemma getNextRestartTime_within_a_day_witness :
  0 <= 23 < 24 /\ 0 <= 59 < 60 /\ 0 <= 1704067200000 <= maxTime - msPerDay /\
  exists next,
    getNextRestartTime (hhmm 23 59) 1704067200000 = Num next /\
    1704067200000 < next <= 1704067200000 + 86400000.
Proof.
  assert (Hh : 0 <= 23 < 24) by lia.
  assert (Hm : 0 <= 59 < 60) by lia.
  assert (Hnow : 0 <= 1704067200000 <= maxTime - msPerDay)
    by (unfold maxTime, msPerDay; lia).
  split; [exact Hh|]. split; [exact Hm|]. split; [exact Hnow|].
  exact (getNextRestartTime_within_a_day 23 59 1704067200000 Hh Hm Hnow).
Defined.

(** X2.  The schedule is daily: one day later on the clock, the same time
    string gives an instant exactly one day later. *)
Theorem getNextRestartTime_one_day_later h m now :
  0 <= h < 24 -> 0 <= m < 60 -> 0 <= now <= maxTime - 2 * msPerDay ->
  getNextRestartTime (hhmm h m) (now + msPerDay)
  = num_add (getNextRestartTime (hhmm h m) now) (Num msPerDay).
Proof.
  intros Hh Hm Hnow.
  assert (Hday : msPerDay = 86400000) by reflexivity.
  pose proof (YearFromTime_epoch now ltac:(lia)) as Hy1.
  pose proof (YearFromTime_epoch (now + msPerDay) ltac:(lia)) as Hy2.
  pose proof (today_at_ceiling now h m Hh Hm ltac:(lia)) as [Hc1 _].
  pose proof (today_at_ceiling (now + msPerDay) h m Hh Hm ltac:(lia)) as [Hc2 _].
  rewrite !getNextRestartTime_value by lia.
  rewrite today_at_next_day. cbn [num_add]. f_equal. unfold next_from.
  destruct (Z.leb_spec (today_at now h m) now),
           (Z.leb_spec (today_at now h m + msPerDay) (now + msPerDay)); lia.
Qed.

Lemma getNextRestartTime_one_day_later_witness :
  0 <= 8 < 24 /\ 0 <= 30 < 60 /\ 0 <= 1704067200000 <= maxTime - 2 * msPerDay /\
  getNextRestartTime (hhmm 8 30) (1704067200000 + msPerDay)
  = num_add (getNextRestartTime (hhmm 8 30) 1704067200000) (Num msPerDay).
Proof.
  assert (Hh : 0 <= 8 < 24) by lia.
  assert (Hm : 0 <= 30 < 60) by lia.
  assert (Hnow : 0 <= 1704067200000 <= maxTime - 2 * msPerDay)
    by (unfold maxTime, msPerDay; lia).
  split; [exact Hh|]. split; [exact Hm|]. split; [exact Hnow|].
  exact (getNextRestartTime_one_day_later 8 30 1704067200000 Hh Hm Hnow).
Defined.

(** X3.  The fields are not validated.  Two digits that are no hour (24 to
    99) or no minute (60 to 99) roll over as [Date.UTC] carries them: the
    result is still strictly after [now], its minute is [m mod 60] and its
    hour is [(h + m / 60) mod 24], on a later day when the carry passes
    midnight. *)
Theorem getNextRestartTime_rolls_over h m now :
  0 <= h < 100 -> 0 <= m < 100 -> 0 <= now <= maxTime - 6 * msPerDay ->
  exists next,
    getNextRestartTime (hhmm h m) now = Num next /\
    next = next_from (Day now * msPerDay + h * msPerHour + m * msPerMinute) now /\
    now < next /\
    HourFromTime next = (h + m / 60) mod 24 /\
    MinFromTime next = m mod 60 /\
    SecFromTime next = 0.
Proof.
  intros Hh Hm Hnow.
  assert (Hday : msPerDay = 86400000) by reflexivity.
  assert (Hhour : msPerHour = 3600000) by reflexivity.
  assert (Hmin : msPerMinute = 60000) by reflexivity.
  pose proof (YearFromTime_epoch now ltac:(lia)) as Hyear.
  assert (Htoday : today_at now h m = Day now * msPerDay + h * msPerHour + m * msPerMinute).
  { unfold today_at, MakeDate, MakeTime. lia. }
  assert (Hfloor : now - msPerDay < Day now * msPerDay <= now).
  { unfold Day. rewrite Hday. Z.div_mod_to_equations; lia. }
  exists (next_from (today_at now h m) now). split.
  - apply getNextRestartTime_value; lia.
  - rewrite Htoday. split; [reflexivity|].
    set (d := Day now) in *. clearbody d. unfold next_from.
    unfold HourFromTime, MinFromTime, SecFromTime, msPerSecond.
    rewrite Hday, Hhour, Hmin in *.
    destruct (Z.leb_spec (d * 86400000 + h * 3600000 + m * 60000) now);
      (split; [lia|]); repeat split; Z.div_mod_to_equations; lia.
Qed.

Lemma getNextRestartTime_rolls_over_witness :
  0 <= 24 < 100 /\ 0 <= 75 < 100 /\ 0 <= 1704067200000 <= maxTime - 6 * msPerDay /\
  exists next,
    getNextRestartTime (hhmm 24 75) 1704067200000 = Num next /\
    next = next_from (Day 1704067200000 * msPerDay + 24 * msPerHour + 75 * msPerMinute)
                     1704067200000 /\
    1704067200000 < next /\
    HourFromTime next = (24 + 75 / 60) mod 24 /\
    MinFromTime next = 75 mod 60 /\
    SecFromTime next = 0.
Proof.
  assert (Hh : 0 <= 24 < 100) by lia.
  assert (Hm : 0 <= 75 < 100) by lia.
  assert (Hnow : 0 <= 1704067200000 <= maxTime - 6 * msPerDay)
    by (unfold maxTime, msPerDay; lia).
  split; [exact Hh|]. split; [exact Hm|]. split; [exact Hnow|].
  exact (getNextRestartTime_rolls_over 24 75 1704067200000 Hh Hm Hnow).
Defined.

Lemma DateUTC_NaN_minutes year month date hours seconds :
  DateUTC year month date hours NaN seconds = NaN.
Proof. destruct year, month, date, hours; reflexivity. Qed.

(** X4.  A time string without a colon has no minutes field: the date
    [getNextRestartTime] builds is invalid, for every clock reading, and
    arming it throws a [RangeError] before anything is logged or any timer is
    set. *)
Theorem getNextRestartTime_without_colon
    {Handler} (timeString : string) (now now_arm : Z) (s : state Handler) :
  contains ":" timeString = false ->
  getNextRestartTime timeString now = NaN /\
  arm_daily timeString now now_arm s = (Thrown (RangeError "Invalid time value"), s).
Proof.
  intros Hcolon.
  assert (Hnan : getNextRestartTime timeString now = NaN).
  { unfold getNextRestartTime. rewrite split_without_separator by exact Hcolon.
    cbn [map element nth]. rewrite DateUTC_NaN_minutes. reflexivity. }
  split; [exact Hnan|].
  unfold arm_daily. rewrite Hnan. reflexivity.
Qed.

Lemma getNextRestartTime_without_colon_witness :
  contains ":" "0830" = false /\
  getNextRestartTime "0830" 1704067200000 = NaN /\
  arm_daily "0830" 1704067200000 1704067200001 connected
  = (Thrown (RangeError "Invalid time value"), connected).
Proof.
  assert (H : contains ":" "0830" = false) by reflexivity.
  split; [exact H|].
  exact (getNextRestartTime_without_colon "0830" 1704067200000 1704067200001 connected H).
Defined.

(** ** More on the cascade *)

Section CascadeMore.
Context {Handler : Type}.
Variable new_URL : string -> option URL.
Variable discordWebhook : option string.
Implicit Types (s : state Handler) (label : string).

Lemma delays_app (a b : list (event Handler)) : delays (a ++ b) = (delays a ++ delays b)%list.
Proof. unfold delays. apply flat_map_app. Qed.

Lemma frames_app (a b : list (event Handler)) : frames (a ++ b) = (frames a ++ frames b)%list.
Proof. unfold frames. apply flat_map_app. Qed.

Lemma delays_announcement_timers eventTime ms label :
  delays (announcement_timers (Handler := Handler) eventTime ms label)
  = map (fun L => ms - L * 1000) (List.filter (fun L => L * 1000 <? ms) intervals).
Proof.
  unfold announcement_timers.
  induction (List.filter (fun L => L * 1000 <? ms) intervals) as [|L rest IH];
    [reflexivity|].
  cbn [map]. unfold delays in *. cbn [flat_map app]. now rewrite IH.
Qed.

Lemma frames_announcement_timers eventTime ms label :
  frames (announcement_timers (Handler := Handler) eventTime ms label) = [].
Proof.
  unfold announcement_timers.
  induction (List.filter (fun L => L * 1000 <? ms) intervals) as [|L rest IH];
    [reflexivity|].
  cbn [map]. unfold frames in *. cbn [flat_map app]. exact IH.
Qed.

(** Lead times in decreasing order give delays in increasing order, all
    below the delay of the last timer. *)
Lemma delays_sorted ms (leads : list Z) (test : Z -> bool) :
  StronglySorted (fun a b => b < a) leads ->
  Forall (fun L => 0 < L) leads ->
  StronglySorted Z.lt (map (fun L => ms - L * 1000) (List.filter test leads) ++ [ms]).
Proof.
  induction 1 as [|a rest Hsorted IH Hall]; intros Hpos.
  - cbn. repeat constructor.
  - apply Forall_cons_iff in Hpos as [Ha Hpos]. specialize (IH Hpos).
    cbn [List.filter]. destruct (test a); [|exact IH].
    cbn [map app]. constructor; [exact IH|].
    apply List.Forall_forall. intros d Hd.
    apply List.in_app_iff in Hd as [Hd|[<-|[]]]; [|lia].
    apply List.in_map_iff in Hd as (b & <- & Hb).
    apply List.filter_In in Hb as [Hb _].
    pose proof (proj1 (List.Forall_forall _ _) Hall b Hb) as Hlt.
    cbv beta in Hlt. lia.
Qed.

Lemma intervals_decreasing :
  StronglySorted (fun a b => b < a) intervals /\ Forall (fun L => 0 < L) intervals.
Proof.
  unfold intervals. split.
  - repeat (constructor; [|repeat (constructor; [lia|]); constructor]). constructor.
  - repeat (constructor; [lia|]). constructor.
Qed.

Lemma fire_trace now callback s :
  exists added,
    fire new_URL discordWebhook now callback s = (Returned tt, appends added s) /\
    added = match callback with
            | Announce eventTime label L =>
                if (L - 1) * 1000 <=? eventTime - now then
                  (send_events ("say [Notification] " ++ label ++ " in " ++
                                formatTime (inject_Z L)) s ++
                   [Log info ("[" ++ name (client s) ++ "] Announced: " ++ label ++ " in " ++
                              formatTime (inject_Z L))])%list
                else []
            | Terminal label =>
                (webhook_events new_URL discordWebhook label s ++
                 send_events "say [Notification] Restarting now..." s ++
                 send_events "server.save" s ++
                 [SetTimeout Restart 2000;
                  Log info ("[" ++ name (client s) ++ "] Executed restart")])%list
            | Restart => send_events "restart 0" s
            end.
Proof.
  destruct callback as [eventTime label L|label|]; eexists; (split; [|reflexivity]).
  - rewrite fire_Announce.
    destruct ((L - 1) * 1000 <=? eventTime - now); [reflexivity | now rewrite appends_nil].
  - apply fire_Terminal.
  - apply fire_Restart.
Qed.

Lemma send_events_no_timer cmd s callback delay :
  ~ In (SetTimeout callback delay) (send_events cmd s).
Proof.
  unfold send_events. destruct (is_open s); cbn [In]; intros H;
    repeat destruct H as [H|H]; try discriminate; exact H.
Qed.

Lemma webhook_events_no_timer label s callback delay :
  ~ In (SetTimeout callback delay) (webhook_events new_URL discordWebhook label s).
Proof.
  unfold webhook_events.
  destruct (globalDiscordWebhook discordWebhook) as [w|]; [|intros []].
  destruct (new_URL w); cbn [In]; intros H;
    repeat destruct H as [H|H]; try discriminate; exact H.
Qed.

Lemma frames_send_events_closed cmd s :
  is_open s = false -> frames (send_events cmd s) = [].
Proof. intros H. unfold send_events. now rewrite H. Qed.

Lemma frames_webhook_events label s :
  frames (webhook_events new_URL discordWebhook label s) = [].
Proof.
  unfold webhook_events.
  destruct (globalDiscordWebhook discordWebhook) as [w|]; [|reflexivity].
  destruct (new_URL w); reflexivity.
Qed.

End CascadeMore.

(** X5.  The timers of an armed cascade are set in firing order: their
    delays increase strictly, each is positive, and the last one, the
    terminal timer's, is [msUntilRestart]; so every announcement is due
    before the restart and a longer lead time is due earlier. *)
Theorem scheduleRestart_delays_increase
    {Handler} (s : state Handler) (now eventTime : Z) (label : string) :
  0 < eventTime - now ->
  exists added,
    scheduleRestart now (Num eventTime) label s = (Returned tt, appends added s) /\
    StronglySorted Z.lt (delays added) /\
    Forall (fun delay => 0 < delay <= eventTime - now) (delays added) /\
    List.last (delays added) 0 = eventTime - now.
Proof.
  intros Hms. eexists. split; [apply scheduleRestart_armed; exact Hms|].
  change (delays (?e :: ?rest)) with (delays rest).
  rewrite !delays_app, delays_announcement_timers.
  change (delays [SetTimeout (Terminal label) (eventTime - now)]) with [eventTime - now].
  destruct intervals_decreasing as [Hdec Hpos].
  pose proof (delays_sorted (eventTime - now) intervals
                (fun L => L * 1000 <? eventTime - now) Hdec Hpos) as Hsorted.
  split; [exact Hsorted|]. split.
  - apply List.Forall_forall. intros d Hd.
    apply List.in_app_iff in Hd as [Hd|[<-|[]]]; [|lia].
    apply List.in_map_iff in Hd as (L & <- & HL).
    apply List.filter_In in HL as [HL Hlt]. apply Z.ltb_lt in Hlt.
    pose proof (proj1 (List.Forall_forall _ _) Hpos L HL) as H0. cbv beta in H0. lia.
  - apply List.last_last.
Qed.

Lemma scheduleRestart_delays_increase_witness :
  0 < 1704067200000 - 1704066000000 /\
  exists added,
    scheduleRestart 1704066000000 (Num 1704067200000) "Daily restart" connected
    = (Returned tt, appends added connected) /\
    StronglySorted Z.lt (delays added) /\
    Forall (fun delay => 0 < delay <= 1704067200000 - 1704066000000) (delays added) /\
    List.last (delays added) 0 = 1704067200000 - 1704066000000.
Proof.
  assert (H : 0 < 1704067200000 - 1704066000000) by lia.
  split; [exact H|].
  exact (scheduleRestart_delays_increase connected 1704066000000 1704067200000
           "Daily restart" H).
Defined.

(** X6.  How many timers a cascade has: an event at most 5 seconds ahead
    gets the terminal timer alone, without any announcement; an event more
    than 30 minutes ahead gets all ten announcements and the terminal timer;
    and there are never more than eleven. *)
Theorem scheduleRestart_timer_count
    {Handler} (s : state Handler) (now eventTime : Z) (label : string) :
  0 < eventTime - now ->
  exists added,
    scheduleRestart now (Num eventTime) label s = (Returned tt, appends added s) /\
    (eventTime - now <= 5000 -> delays added = [eventTime - now]) /\
    (1800000 < eventTime - now ->
     delays added
     = (map (fun L => eventTime - now - L * 1000) intervals ++ [eventTime - now])%list) /\
    (1 <= length (delays added) <= 11)%nat.
Proof.
  intros Hms. eexists. split; [apply scheduleRestart_armed; exact Hms|].
  change (delays (?e :: ?rest)) with (delays rest).
  rewrite !delays_app, delays_announcement_timers.
  change (delays [SetTimeout (Terminal label) (eventTime - now)]) with [eventTime - now].
  set (ms := eventTime - now) in *.
  split; [|split].
  - intros Hnear. unfold intervals. cbn [List.filter].
    repeat match goal with
           | |- context [?a <? ms] => destruct (Z.ltb_spec a ms); [lia|]
           end.
    reflexivity.
  - intros Hfar. unfold intervals. cbn [List.filter].
    repeat match goal with
           | |- context [?a <? ms] => destruct (Z.ltb_spec a ms); [|lia]
           end.
    reflexivity.
  - rewrite length_app, length_map. cbn [length].
    pose proof (filter_length_le (fun L => L * 1000 <? ms) intervals) as Hle.
    change (length intervals) with 10%nat in Hle. lia.
Qed.

Lemma scheduleRestart_timer_count_witness :
  0 < 1704067200000 - 1704067196000 /\
  exists added,
    scheduleRestart 1704067196000 (Num 1704067200000) "Daily restart" connected
    = (Returned tt, appends added connected) /\
    (1704067200000 - 1704067196000 <= 5000 ->
     delays added = [1704067200000 - 1704067196000]) /\
    (1800000 < 1704067200000 - 1704067196000 ->
     delays added
     = (map (fun L => 1704067200000 - 1704067196000 - L * 1000) intervals ++
        [1704067200000 - 1704067196000])%list) /\
    (1 <= length (delays added) <= 11)%nat.
Proof.
  assert (H : 0 < 1704067200000 - 1704067196000) by lia.
  split; [exact H|].
  exact (scheduleRestart_timer_count connected 1704067196000 1704067200000
           "Daily restart" H).
Defined.

(** X7.  The tolerance of an announcement is one second.  A callback that
    runs [late] milliseconds after the moment its timer was set for announces
    when [late] is at most 1000 and does nothing at all when it is more. *)
Theorem fire_Announce_lateness
    {Handler} (new_URL : string -> option URL) (discordWebhook : option string)
    (s : state Handler) (now ms L late : Z) (label : string) :
  fire new_URL discordWebhook (now + (ms - L * 1000) + late)
       (Announce (now + ms) label L) s
  = (Returned tt,
     if late <=? 1000 then
       appends
         (send_events ("say [Notification] " ++ label ++ " in " ++ formatTime (inject_Z L)) s
          ++ [Log info ("[" ++ name (client s) ++ "] Announced: " ++ label ++ " in " ++
                        formatTime (inject_Z L))]) s
     else s).
Proof.
  rewrite fire_Announce.
  replace (now + ms - (now + (ms - L * 1000) + late)) with (L * 1000 - late) by lia.
  destruct (Z.leb_spec late 1000), (Z.leb_spec ((L - 1) * 1000) (L * 1000 - late));
    solve [reflexivity | lia].
Qed.

(** X8.  A cascade is armed once and never again.  No timer callback
    throws, none changes the client, and the only timer a callback sets is
    the 2000 ms timer of the terminal callback for the restart command: after
    the restart nothing is scheduled. *)
Theorem fire_sets_no_cascade
    {Handler} (new_URL : string -> option URL) (discordWebhook : option string)
    (s : state Handler) (now : Z) (callback : task) :
  exists added,
    fire new_URL discordWebhook now callback s = (Returned tt, appends added s) /\
    (forall callback' delay,
        In (SetTimeout callback' delay) added ->
        callback' = Restart /\ delay = 2000 /\ exists label, callback = Terminal label) /\
    (callback = Restart -> delays added = []).
Proof.
  destruct (fire_trace new_URL discordWebhook now callback s) as (added & Hfire & ->).
  eexists. split; [exact Hfire|]. split.
  - intros callback' delay Hin.
    destruct callback as [eventTime label L|label|].
    + destruct ((L - 1) * 1000 <=? eventTime - now); [|destruct Hin].
      apply List.in_app_iff in Hin as [Hin|[Hin|[]]]; [|discriminate].
      now apply send_events_no_timer in Hin.
    + apply List.in_app_iff in Hin as [Hin|Hin];
        [now apply webhook_events_no_timer in Hin|].
      apply List.in_app_iff in Hin as [Hin|Hin]; [now apply send_events_no_timer in Hin|].
      apply List.in_app_iff in Hin as [Hin|Hin]; [now apply send_events_no_timer in Hin|].
      destruct Hin as [Hin|[Hin|[]]]; [|discriminate].
      injection Hin as <- <-. eauto.
    + now apply send_events_no_timer in Hin.
  - intros ->. unfold send_events. destruct (is_open s); reflexivity.
Qed.

(** X9.  Nothing is queued or retried.  When the socket is not open at the
    moment of the restart, the terminal callback and, two seconds later, the
    restart callback send no frame at all: each command is logged as not sent,
    "Executed restart" is logged all the same, and no further timer is
    left. *)
Theorem fire_Terminal_socket_closed
    {Handler} (new_URL : string -> option URL) (discordWebhook : option string)
    (s : state Handler) (now now' : Z) (label : string) :
  is_open s = false ->
  let at_restart := snd (fire new_URL discordWebhook now (Terminal label) s) in
  let after := snd (fire new_URL discordWebhook now' Restart at_restart) in
  at_restart
  = appends
      (webhook_events new_URL discordWebhook label s ++
       [Log error_level ("[" ++ name (client s) ++ "] WebSocket not open. Cannot send: " ++
                         "say [Notification] Restarting now...");
        Log error_level ("[" ++ name (client s) ++ "] WebSocket not open. Cannot send: " ++
                         "server.save");
        SetTimeout Restart 2000;
        Log info ("[" ++ name (client s) ++ "] Executed restart")]) s /\
  after
  = appends
      [Log error_level ("[" ++ name (client s) ++ "] WebSocket not open. Cannot send: " ++
                        "restart 0")] at_restart /\
  frames (trace after) = frames (trace s) /\
  delays (trace after) = (delays (trace s) ++ [2000])%list.
Proof.
  intros Hclosed at_restart after.
  assert (H1 : at_restart
               = appends
                   (webhook_events new_URL discordWebhook label s ++
                    [Log error_level ("[" ++ name (client s) ++
                                      "] WebSocket not open. Cannot send: " ++
                                      "say [Notification] Restarting now...");
                     Log error_level ("[" ++ name (client s) ++
                                      "] WebSocket not open. Cannot send: " ++ "server.save");
                     SetTimeout Restart 2000;
                     Log info ("[" ++ name (client s) ++ "] Executed restart")]) s).
  { subst at_restart. rewrite fire_Terminal. unfold send_events. now rewrite Hclosed. }
  assert (H2 : after
               = appends
                   [Log error_level ("[" ++ name (client s) ++
                                     "] WebSocket not open. Cannot send: " ++ "restart 0")]
                   at_restart).
  { subst after. rewrite fire_Restart. rewrite H1. unfold send_events.
    rewrite is_open_appends, Hclosed. reflexivity. }
  split; [exact H1|]. split; [exact H2|].
  rewrite H2, H1. unfold appends. cbn [trace client].
  rewrite !frames_app, !delays_app, frames_webhook_events.
  split.
  - cbn. now rewrite !app_nil_r.
  - assert (Hd : delays (webhook_events new_URL discordWebhook label s) = []).
    { unfold webhook_events. destruct (globalDiscordWebhook discordWebhook) as [w|];
        [|reflexivity]. destruct (new_URL w); reflexivity. }
    rewrite Hd. cbn. now rewrite !app_nil_r.
Qed.

Lemma fire_Terminal_socket_closed_witness :
  is_open (new_RconClient (Handler := nat) "srv" "host" "28016" "pw") = false /\
  frames (trace (snd (fire (fun _ => None) None 2000 Restart
                        (snd (fire (fun _ => None) None 0 (Terminal "Daily restart")
                                (new_RconClient (Handler := nat) "srv" "host" "28016" "pw"))))))
  = frames (trace (new_RconClient (Handler := nat) "srv" "host" "28016" "pw")).
Proof.
  assert (H : is_open (new_RconClient (Handler := nat) "srv" "host" "28016" "pw") = false)
    by reflexivity.
  split; [exact H|].
  exact (proj1 (proj2 (proj2
           (fire_Terminal_socket_closed (fun _ => None) None
              (new_RconClient (Handler := nat) "srv" "host" "28016" "pw") 0 2000
              "Daily restart" H)))).
Defined.

Lemma scheduleRestart_effects
    {Handler} (s : state Handler) (now : Z) (eventTime : Date) (label : string) :
  exists result added,
    scheduleRestart now eventTime label s = (result, appends added s) /\
    frames added = [] /\ invocations added = 0%nat /\
    (length (delays added) <= 11)%nat /\
    (eventTime = NaN -> result = Thrown (RangeError "Invalid time value") /\ added = []) /\
    (eventTime <> NaN -> result = Returned tt).
Proof.
  destruct eventTime as [eventTime|].
  - destruct (Z_lt_le_dec 0 (eventTime - now)) as [Hms|Hms].
    + eexists _, _. split; [apply scheduleRestart_armed; exact Hms|].
      split; [|split; [|split; [|split; [discriminate | reflexivity]]]].
      * change (frames (?e :: ?rest)) with (frames rest).
        now rewrite frames_app, frames_announcement_timers.
      * unfold invocations, announcement_timers. cbn [List.filter].
        rewrite List.filter_app. cbn [List.filter]. rewrite app_nil_r.
        induction (List.filter (fun L => L * 1000 <? eventTime - now) intervals)
          as [|L rest IH]; [reflexivity | exact IH].
      * change (delays (?e :: ?rest)) with (delays rest).
        rewrite delays_app, delays_announcement_timers, length_app, length_map.
        pose proof (filter_length_le (fun L => L * 1000 <? eventTime - now) intervals)
          as Hle.
        change (length intervals) with 10%nat in Hle. cbn [delays flat_map app length]. lia.
    + eexists _, _. split; [apply scheduleRestart_stale; exact Hms|].
      split; [reflexivity|]. split; [reflexivity|]. split; [cbn; lia|].
      split; [discriminate | reflexivity].
  - exists (Thrown (RangeError "Invalid time value")), []. rewrite appends_nil.
    split; [reflexivity|]. split; [reflexivity|]. split; [reflexivity|].
    split; [cbn; lia|]. split; [auto | congruence].
Qed.

(** X10.  Arming never touches the socket or the client.  Whatever the
    date, [scheduleRestart] sends no frame, calls no callback and leaves the
    client as it is; it returns normally exactly when the date is valid, and
    for an invalid date it throws having logged nothing and set no timer. *)
Theorem scheduleRestart_only_logs_and_timers
    {Handler} (s : state Handler) (now : Z) (eventTime : Date) (label : string) :
  exists result added,
    scheduleRestart now eventTime label s = (result, appends added s) /\
    frames added = [] /\ invocations added = 0%nat /\
    (eventTime = NaN -> result = Thrown (RangeError "Invalid time value") /\ added = []) /\
    (eventTime <> NaN -> result = Returned tt).
Proof.
  destruct (scheduleRestart_effects s now eventTime label)
    as (result & added & Heq & Hframes & Hinv & _ & Hnan & Hvalid).
  exists result, added. auto.
Qed.

(** ** More on the client: what a run does to the table and the wire *)

Section RunsMore.
Context {Handler : Type}.
Variable new_URL : string -> option URL.
Variable discordWebhook : option string.
Implicit Types (s : state Handler) (c : RconClient Handler) (k : Z).

Lemma plain_send_events cmd s : Forall plain (send_events cmd s).
Proof.
  unfold send_events. destruct (is_open s); repeat constructor. now exists cmd.
Qed.

Lemma plain_webhook_events label s :
  Forall plain (webhook_events new_URL discordWebhook label s).
Proof.
  unfold webhook_events. destruct (globalDiscordWebhook discordWebhook) as [w|];
    [|constructor]. destruct (new_URL w); repeat constructor.
Qed.

Lemma plain_announcement_timers eventTime ms label :
  Forall plain (announcement_timers (Handler := Handler) eventTime ms label).
Proof.
  unfold announcement_timers. apply List.Forall_forall. intros e He.
  apply List.in_map_iff in He as (L & <- & _). exact I.
Qed.

(** What one step does: it leaves the client alone and adds plain events,
    or moves the socket's state, or files a callback and sends the frame with
    the new identifier, or calls a pending callback and removes it. *)
Lemma exec_cases o s :
  exists result s' added,
    exec new_URL discordWebhook o s = (result, s') /\
    trace s' = (trace s ++ added)%list /\
    ((client s' = client s /\ Forall plain added) \/
     (exists rs, o = SocketState rs /\ added = [] /\
        client s' = {| name := name (client s); url := url (client s); readyStateOf := rs;
                       callbacks := callbacks (client s);
                       lastIdentifier := lastIdentifier (client s) |}) \/
     (exists cmd cb, o = Send cmd (Some cb) /\ is_open s = true /\
        client s' = with_callback cb (client s) /\
        added = [WsSend (packet_of (lastIdentifier (client s) + 1) cmd);
                 Log info ("[" ++ name (client s) ++ "] Sent command: " ++ cmd)]) \/
     (exists data k others cb,
        o = Message (Parsed data (MsgObject (Some k) others)) /\
        1000 < k /\ callbacks (client s) !! k = Some cb /\
        client s' = without_callback k (client s) /\
        added = [Invoke cb (MsgObject (Some k) others)])).
Proof.
  assert (Hsame : forall result added,
             Forall plain added ->
             exec new_URL discordWebhook o s = (result, appends added s) ->
             exists result s' added,
               exec new_URL discordWebhook o s = (result, s') /\
               trace s' = (trace s ++ added)%list /\
               ((client s' = client s /\ Forall plain added) \/
                (exists rs, o = SocketState rs /\ added = [] /\
                   client s' = {| name := name (client s); url := url (client s);
                                  readyStateOf := rs; callbacks := callbacks (client s);
                                  lastIdentifier := lastIdentifier (client s) |}) \/
                (exists cmd cb, o = Send cmd (Some cb) /\ is_open s = true /\
                   client s' = with_callback cb (client s) /\
                   added = [WsSend (packet_of (lastIdentifier (client s) + 1) cmd);
                            Log info ("[" ++ name (client s) ++ "] Sent command: " ++ cmd)]) \/
                (exists data k others cb,
                   o = Message (Parsed data (MsgObject (Some k) others)) /\
                   1000 < k /\ callbacks (client s) !! k = Some cb /\
                   client s' = without_callback k (client s) /\
                   added = [Invoke cb (MsgObject (Some k) others)]))).
  { intros result added Hplain Hexec. exists result, (appends added s), added.
    split; [exact Hexec|]. split; [reflexivity|]. left. split; [reflexivity | exact Hplain]. }
  assert (Hquiet : forall result,
             exec new_URL discordWebhook o s = (result, s) ->
             exec new_URL discordWebhook o s = (result, appends [] s))
    by (intros result ->; now rewrite appends_nil).
  destruct o as [cmd [cb|]|f| | |err|rs|now eventTime label|now callback]; cbn [exec] in *.
  - destruct (is_open s) eqn:Hopen.
    + eexists _, _, _. split; [apply sendCommand_handler; exact Hopen|].
      split; [reflexivity|]. right. right. left. exists cmd, cb. auto.
    + eapply Hsame; [|apply sendCommand_closed; exact Hopen]. repeat constructor.
  - eapply Hsame; [|apply sendCommand_plain]. apply plain_send_events.
  - destruct f as [data|data [|b|z|text|items|[k|] others]];
      try (eapply (Hsame _ []); [constructor | apply Hquiet; reflexivity]).
    + eapply Hsame; [|apply on_message_unparsable]. repeat constructor.
    + destruct (callbacks (client s) !! k) as [cb|] eqn:Hcb.
      * destruct (Z_lt_le_dec 1000 k) as [Hk|Hk].
        -- eexists _, _, _. split; [apply (on_message_known _ _ _ cb); assumption|].
           split; [reflexivity|]. right. right. right. exists data, k, others, cb. auto.
        -- eapply (Hsame _ []); [constructor | apply Hquiet; now apply on_message_low].
      * eapply (Hsame _ []); [constructor | apply Hquiet; now apply on_message_unknown].
  - eapply Hsame; [|reflexivity]. repeat constructor.
  - eapply Hsame; [|reflexivity]. repeat constructor.
  - eapply Hsame; [|reflexivity]. repeat constructor.
  - eexists _, _, []. split; [reflexivity|]. cbn [snd trace client].
    split; [now rewrite app_nil_r|]. right. left. exists rs. auto.
  - destruct eventTime as [eventTime|].
    + destruct (Z_lt_le_dec 0 (eventTime - now)) as [Hms|Hms].
      * eapply Hsame; [|apply scheduleRestart_armed; exact Hms].
        constructor; [exact I|]. apply Forall_app. split.
        -- apply plain_announcement_timers.
        -- repeat constructor.
      * eapply Hsame; [|apply scheduleRestart_stale; exact Hms]. repeat constructor.
    + eapply (Hsame _ []); [constructor | apply Hquiet; reflexivity].
  - destruct (fire_trace new_URL discordWebhook now callback s) as (added & Hfire & Hadded).
    eapply Hsame; [|exact Hfire]. subst added.
    destruct callback as [eventTime label L|label|].
    + destruct ((L - 1) * 1000 <=? eventTime - now); [|constructor].
      apply Forall_app. split; [apply plain_send_events | repeat constructor].
    + apply Forall_app. split; [apply plain_webhook_events|].
      apply Forall_app. split; [apply plain_send_events|].
      apply Forall_app. split; [apply plain_send_events | repeat constructor].
    + apply plain_send_events.
Qed.

Lemma invocations_app (a b : list (event Handler)) :
  invocations (a ++ b) = (invocations a + invocations b)%nat.
Proof. unfold invocations. now rewrite List.filter_app, length_app. Qed.

Lemma issued_app (a b : list (event Handler)) : issued (a ++ b) = (issued a ++ issued b)%list.
Proof. unfold issued. apply flat_map_app. Qed.

Lemma plain_invocations (added : list (event Handler)) :
  Forall plain added -> invocations added = 0%nat.
Proof.
  induction 1 as [|e rest He _ IH]; [reflexivity|].
  unfold invocations in *. cbn [List.filter]. destruct e; try exact IH. destruct He.
Qed.

Lemma plain_issued (added : list (event Handler)) :
  Forall plain added -> issued added = [].
Proof.
  induction 1 as [|e rest He _ IH]; [reflexivity|].
  unfold issued in *. cbn [flat_map]. rewrite IH.
  destruct e; try reflexivity. destruct He as [cmd ->]. reflexivity.
Qed.

End RunsMore.

Section Ledger.
Context {Handler : Type}.
Variable new_URL : string -> option URL.
Variable discordWebhook : option string.
Implicit Types (s : state Handler) (k : Z).

Lemma run_invariant (P : state Handler -> Prop) (allowed : op -> bool) :
  (forall o s, allowed o = true -> P s -> P (snd (exec new_URL discordWebhook o s))) ->
  forall ops s, forallb allowed ops = true -> P s -> P (run new_URL discordWebhook ops s).
Proof.
  intros Hstep ops. induction ops as [|o rest IH]; intros s Hall Hs; [exact Hs|].
  cbn [forallb] in Hall. apply andb_prop in Hall as [Ho Hrest].
  cbn [run]. apply IH; [exact Hrest|]. now apply Hstep.
Qed.

Lemma forallb_always {A} (l : list A) : forallb (fun _ => true) l = true.
Proof. induction l; [reflexivity | assumption]. Qed.

(** The books of a client made by the constructor: the table's keys are
    identifiers handed out, the identifiers on the wire are 1001 up to the
    counter, and each of them is either pending or was delivered once. *)
Lemma reachable_ledger s :
  reachable new_URL discordWebhook s ->
  counter_bounds (client s) /\
  issued (trace s) = seqZ 1001 (lastIdentifier (client s) - 1000) /\
  Z.of_nat (size (callbacks (client s))) + Z.of_nat (invocations (trace s))
  = lastIdentifier (client s) - 1000.
Proof.
  intros (serverName & host & port & password & ops & ->).
  apply (run_invariant
           (fun s => counter_bounds (client s) /\
                     issued (trace s) = seqZ 1001 (lastIdentifier (client s) - 1000) /\
                     Z.of_nat (size (callbacks (client s))) + Z.of_nat (invocations (trace s))
                     = lastIdentifier (client s) - 1000)
           (fun _ => true)); [|apply forallb_always|].
  - clear. intros o s _ (Hbounds & Hissued & Hcount).
    destruct (exec_cases new_URL discordWebhook o s)
      as (result & s' & added & Hexec & Htrace & Hcases).
    rewrite Hexec. cbn [snd]. rewrite Htrace, issued_app, invocations_app.
    destruct Hcases as [[Hc Hplain]|[(rs & _ & -> & Hc)|[(cmd & cb & _ & _ & Hc & ->)
                        |(data & k & others & cb & _ & Hk & Hcb & Hc & ->)]]];
      rewrite Hc.
    + rewrite (plain_issued added Hplain), (plain_invocations added Hplain), app_nil_r.
      split; [exact Hbounds|]. split; [exact Hissued | lia].
    + cbn [issued invocations flat_map List.filter length callbacks lastIdentifier].
      rewrite app_nil_r. split; [exact Hbounds|]. split; [exact Hissued | lia].
    + destruct Hbounds as [Hlo Hkeys].
      assert (Hfresh : callbacks (client s) !! (lastIdentifier (client s) + 1) = None).
      { destruct (callbacks (client s) !! (lastIdentifier (client s) + 1)) eqn:Hl;
          [|reflexivity].
        specialize (Hkeys (lastIdentifier (client s) + 1) ltac:(rewrite Hl; eauto)). lia. }
      split; [|split].
      * apply (client_step_bounds (client s)); [apply step_filed | now split].
      * cbn [with_callback lastIdentifier]. rewrite Hissued.
        replace (lastIdentifier (client s) + 1 - 1000)
          with ((lastIdentifier (client s) - 1000) + 1) by lia.
        rewrite seqZ_app by lia. f_equal.
        unfold issued, packet_of. cbn [flat_map].
        destruct (Z.ltb_spec 1000 (lastIdentifier (client s) + 1)); [|lia].
        replace (1001 + (lastIdentifier (client s) - 1000))
          with (lastIdentifier (client s) + 1) by lia.
        reflexivity.
      * cbn [with_callback callbacks lastIdentifier].
        rewrite map_size_insert_None by exact Hfresh.
        change (invocations [WsSend _; Log _ _]) with 0%nat. lia.
    + split; [|split].
      * apply (client_step_bounds (client s)); [apply step_removed | exact Hbounds].
      * cbn [without_callback lastIdentifier]. cbn. rewrite app_nil_r. exact Hissued.
      * cbn [without_callback callbacks lastIdentifier].
        rewrite map_size_delete_Some by (rewrite Hcb; eauto).
        change (invocations [Invoke _ _]) with 1%nat.
        assert (size (callbacks (client s)) <> 0%nat).
        { intros H0. apply map_size_empty_inv in H0. rewrite H0, lookup_empty in Hcb.
          discriminate. }
        lia.
  - cbn. split; [|split; reflexivity]. split; cbn; [lia|].
    intros k Hk. rewrite lookup_empty in Hk. destruct Hk; discriminate.
Qed.

End Ledger.

(** X11.  The program as written never uses the reply mechanism: every send
    of [server.js] is without a handler.  Through any run of such steps
    (sends, inbound frames of any content, socket events, cascades armed and
    fired) the callback table stays empty, the counter stays at 1000, no
    callback is ever called, and every frame on the wire carries the
    identifier -1. *)
Theorem program_never_correlates
    {Handler} (new_URL : string -> option URL) (discordWebhook : option string)
    (serverName host port password : string) (ops : list (op (Handler := Handler))) :
  forallb fire_and_forget ops = true ->
  let s := run new_URL discordWebhook ops (new_RconClient serverName host port password) in
  callbacks (client s) = ∅ /\
  lastIdentifier (client s) = 1000 /\
  invocations (trace s) = 0%nat /\
  (forall cb msg, ~ In (Invoke cb msg) (trace s)) /\
  (forall packet, In (WsSend packet) (trace s) ->
                  exists cmd, packet = packet_of (-1) cmd).
Proof.
  intros Hops s.
  assert (H : callbacks (client s) = ∅ /\ lastIdentifier (client s) = 1000 /\
              Forall plain (trace s)).
  { subst s.
    apply (run_invariant new_URL discordWebhook
             (fun s => callbacks (client s) = ∅ /\ lastIdentifier (client s) = 1000 /\
                       Forall plain (trace s))
             fire_and_forget); [|exact Hops|].
    - clear. intros o s Ho (Hempty & Hcounter & Hplain).
      destruct (exec_cases new_URL discordWebhook o s)
        as (result & s' & added & Hexec & Htrace & Hcases).
      rewrite Hexec. cbn [snd]. rewrite Htrace.
      destruct Hcases as [[Hc Hadded]|[(rs & _ & -> & Hc)|[(cmd & cb & -> & _)
                          |(data & k & others & cb & _ & _ & Hcb & _)]]].
      + rewrite Hc. split; [exact Hempty|]. split; [exact Hcounter|].
        apply Forall_app. now split.
      + rewrite Hc, app_nil_r. cbn [callbacks lastIdentifier]. auto.
      + discriminate.
      + rewrite Hempty, lookup_empty in Hcb. discriminate.
    - cbn. split; [reflexivity|]. split; [reflexivity|]. repeat constructor. }
  destruct H as (Hempty & Hcounter & Hplain).
  split; [exact Hempty|]. split; [exact Hcounter|].
  split; [now apply plain_invocations|]. split.
  - intros cb msg Hin. exact (proj1 (List.Forall_forall _ _) Hplain _ Hin).
  - intros packet Hin. exact (proj1 (List.Forall_forall _ _) Hplain _ Hin).
Qed.

Lemma program_never_correlates_witness :
  forallb (fire_and_forget (Handler := nat))
          [SocketState OPEN; SocketOpen;
           Arm 1704066000000 (Num 1704067200000) "Daily restart";
           Message (Parsed "{}" (MsgObject (Some 1001) []));
           Fire 1704067200000 (Terminal "Daily restart");
           Fire 1704067202000 Restart] = true /\
  callbacks (client (run (fun _ => None) None
                        [SocketState OPEN; SocketOpen;
                         Arm 1704066000000 (Num 1704067200000) "Daily restart";
                         Message (Parsed "{}" (MsgObject (Some 1001) []));
                         Fire 1704067200000 (Terminal "Daily restart");
                         Fire 1704067202000 Restart]
                        (new_RconClient (Handler := nat) "srv" "host" "28016" "pw")))
  = ∅.
Proof.
  assert (H : forallb (fire_and_forget (Handler := nat))
                [SocketState OPEN; SocketOpen;
                 Arm 1704066000000 (Num 1704067200000) "Daily restart";
                 Message (Parsed "{}" (MsgObject (Some 1001) []));
                 Fire 1704067200000 (Terminal "Daily restart");
                 Fire 1704067202000 Restart] = true) by reflexivity.
  split; [exact H|].
  exact (proj1 (program_never_correlates (fun _ => None) None "srv" "host" "28016" "pw" _ H)).
Defined.

(** X12.  Nothing is lost from the books of the reply mechanism.  On a
    client made by the constructor, after any run, every pending identifier
    lies above 1000 and at most at the counter, and the identifiers handed
    out so far (the counter minus 1000) are the pending entries plus the
    callback calls made: each one is pending or was delivered exactly
    once. *)
Theorem callbacks_pending_or_delivered
    {Handler} (new_URL : string -> option URL) (discordWebhook : option string)
    (s : state Handler) :
  reachable new_URL discordWebhook s ->
  (forall k cb, callbacks (client s) !! k = Some cb ->
                1000 < k <= lastIdentifier (client s)) /\
  Z.of_nat (size (callbacks (client s))) + Z.of_nat (invocations (trace s))
  = lastIdentifier (client s) - 1000.
Proof.
  intros Hreach.
  destruct (reachable_ledger new_URL discordWebhook s Hreach) as ([_ Hkeys] & _ & Hcount).
  split; [|exact Hcount].
  intros k cb Hcb. apply Hkeys. rewrite Hcb. eauto.
Qed.

Lemma callbacks_pending_or_delivered_witness :
  reachable (fun _ => None) None awaiting /\
  Z.of_nat (size (callbacks (client awaiting))) + Z.of_nat (invocations (trace awaiting))
  = lastIdentifier (client awaiting) - 1000.
Proof.
  assert (Hreach : reachable (fun _ => None) None awaiting).
  { exists "srv", "host", "28016", "pw",
      [SocketState OPEN; SocketOpen; Send "status" (Some 7%nat)]. reflexivity. }
  split; [exact Hreach|].
  exact (proj2 (callbacks_pending_or_delivered (fun _ => None) None awaiting Hreach)).
Defined.

(** X13.  The correlation identifiers put on the wire by a client made by
    the constructor are, in order, 1001, 1002, ... up to the counter: no gap,
    no repetition, whatever else happened in between. *)
Theorem issued_identifiers_consecutive
    {Handler} (new_URL : string -> option URL) (discordWebhook : option string)
    (s : state Handler) :
  reachable new_URL discordWebhook s ->
  issued (trace s) = seqZ 1001 (lastIdentifier (client s) - 1000) /\
  NoDup (issued (trace s)).
Proof.
  intros Hreach.
  destruct (reachable_ledger new_URL discordWebhook s Hreach) as (_ & Hissued & _).
  split; [exact Hissued|]. rewrite Hissued. apply NoDup_seqZ.
Qed.

Lemma issued_identifiers_consecutive_witness :
  reachable (fun _ => None) None awaiting /\
  issued (trace awaiting) = seqZ 1001 (lastIdentifier (client awaiting) - 1000).
Proof.
  assert (Hreach : reachable (fun _ => None) None awaiting).
  { exists "srv", "host", "28016", "pw",
      [SocketState OPEN; SocketOpen; Send "status" (Some 7%nat)]. reflexivity. }
  split; [exact Hreach|].
  exact (proj1 (issued_identifiers_consecutive (fun _ => None) None awaiting Hreach)).
Defined.

(** X14.  A pending callback is only ever removed by its reply.  On a
    client made by the constructor, an entry filed under [k] is still there,
    with the same callback, after any run in which no inbound frame carries
    [k]: there is no timeout and no cleanup, and no later send overwrites
    it. *)
Theorem callback_kept_until_reply
    {Handler} (new_URL : string -> option URL) (discordWebhook : option string)
    (s : state Handler) (k : Z) (cb : Handler) (ops : list op) :
  reachable new_URL discordWebhook s ->
  callbacks (client s) !! k = Some cb ->
  forallb (fun o => negb (carries k o)) ops = true ->
  callbacks (client (run new_URL discordWebhook ops s)) !! k = Some cb.
Proof.
  intros Hreach Hcb Hops.
  pose proof (reachable_bounds _ _ _ Hreach) as Hbounds.
  assert (H : callbacks (client (run new_URL discordWebhook ops s)) !! k = Some cb /\
              counter_bounds (client (run new_URL discordWebhook ops s))).
  { apply (run_invariant new_URL discordWebhook
             (fun s => callbacks (client s) !! k = Some cb /\ counter_bounds (client s))
             (fun o => negb (carries k o))); [|exact Hops|now split].
    clear. intros o s Ho [Hcb Hbounds].
    split; [|exact (client_step_bounds _ _ (exec_client_step new_URL discordWebhook o s)
                      Hbounds)].
    destruct (exec_cases new_URL discordWebhook o s)
      as (result & s' & added & Hexec & _ & Hcases).
    rewrite Hexec. cbn [snd].
    destruct Hcases as [[Hc _]|[(rs & _ & _ & Hc)|[(cmd & cb' & _ & _ & Hc & _)
                        |(data & k' & others & cb' & -> & _ & _ & Hc & _)]]];
      rewrite Hc; cbn [callbacks with_callback without_callback]; try exact Hcb.
    - destruct Hbounds as [_ Hkeys].
      specialize (Hkeys k ltac:(rewrite Hcb; eauto)).
      rewrite lookup_insert_ne by lia. exact Hcb.
    - cbn [carries] in Ho. apply negb_true_iff in Ho. apply Z.eqb_neq in Ho.
      rewrite lookup_delete_ne by exact Ho. exact Hcb. }
  exact (proj1 H).
Qed.

Lemma callback_kept_until_reply_witness :
  reachable (fun _ => None) None awaiting /\
  callbacks (client awaiting) !! 1001 = Some 7%nat /\
  forallb (fun o => negb (carries 1001 o))
          [Send "players" (Some 8%nat);
           Message (Parsed "{}" (MsgObject (Some 1002) []));
           Message (Unparsable "x"); SocketClose] = true /\
  callbacks (client (run (fun _ => None) None
                        [Send "players" (Some 8%nat);
                         Message (Parsed "{}" (MsgObject (Some 1002) []));
                         Message (Unparsable "x"); SocketClose] awaiting)) !! 1001
  = Some 7%nat.
Proof.
  assert (Hreach : reachable (fun _ => None) None awaiting).
  { exists "srv", "host", "28016", "pw",
      [SocketState OPEN; SocketOpen; Send "status" (Some 7%nat)]. reflexivity. }
  assert (Hcb : callbacks (client awaiting) !! 1001 = Some 7%nat)
    by (vm_compute; reflexivity).
  assert (Hops : forallb (fun o => negb (carries (Handler := nat) 1001 o))
                   [Send "players" (Some 8%nat);
                    Message (Parsed "{}" (MsgObject (Some 1002) []));
                    Message (Unparsable "x"); SocketClose] = true) by reflexivity.
  split; [exact Hreach|]. split; [exact Hcb|]. split; [exact Hops|].
  exact (callback_kept_until_reply (fun _ => None) None awaiting 1001 7%nat _
           Hreach Hcb Hops).
Defined.

(** X15.  Send and reply are a round trip on the table.  On a client made
    by the constructor with an open socket, a send with a handler followed by
    the frame that carries the identifier just handed out calls exactly that
    handler with that frame's message and leaves the table as it was before
    the send; only the counter has advanced, by one. *)
Theorem send_then_reply_restores_table
    {Handler} (new_URL : string -> option URL) (discordWebhook : option string)
    (s : state Handler) (cmd data : string) (cb : Handler)
    (others : list (string * json)) :
  reachable new_URL discordWebhook s ->
  is_open s = true ->
  let identifier := lastIdentifier (client s) + 1 in
  let sent := snd (sendCommand cmd (Some cb) s) in
  on_message (Parsed data (MsgObject (Some identifier) others)) sent
  = (Returned tt,
     {| client := {| name := name (client s); url := url (client s);
                     readyStateOf := readyStateOf (client s);
                     callbacks := callbacks (client s);
                     lastIdentifier := identifier |};
        trace := trace s ++
                 [WsSend (packet_of identifier cmd);
                  Log info ("[" ++ name (client s) ++ "] Sent command: " ++ cmd);
                  Invoke cb (MsgObject (Some identifier) others)] |}).
Proof.
  intros Hreach Hopen identifier sent.
  pose proof (reachable_bounds _ _ _ Hreach) as [Hlo Hkeys].
  assert (Hfresh : callbacks (client s) !! identifier = None).
  { destruct (callbacks (client s) !! identifier) eqn:Hl; [|reflexivity].
    specialize (Hkeys identifier ltac:(rewrite Hl; eauto)). subst identifier. lia. }
  subst sent identifier. rewrite sendCommand_handler by exact Hopen. cbn [snd].
  rewrite (on_message_known _ _ _ cb); [|lia | cbn; apply lookup_insert_eq].
  unfold without_callback, with_callback.
  cbn [client trace name url readyStateOf callbacks lastIdentifier].
  rewrite delete_insert_id by exact Hfresh.
  rewrite <- app_assoc. reflexivity.
Qed.

Lemma send_then_reply_restores_table_witness :
  reachable (fun _ => None) None connected /\
  is_open connected = true /\
  on_message (Parsed "{}" (MsgObject (Some (lastIdentifier (client connected) + 1)) []))
             (snd (sendCommand "status" (Some 7%nat) connected))
  = (Returned tt,
     {| client := {| name := name (client connected); url := url (client connected);
                     readyStateOf := readyStateOf (client connected);
                     callbacks := callbacks (client connected);
                     lastIdentifier := lastIdentifier (client connected) + 1 |};
        trace := trace connected ++
                 [WsSend (packet_of (lastIdentifier (client connected) + 1) "status");
                  Log info ("[" ++ name (client connected) ++ "] Sent command: " ++ "status");
                  Invoke 7%nat (MsgObject (Some (lastIdentifier (client connected) + 1)) [])] |}).
Proof.
  assert (Hreach : reachable (fun _ => None) None connected).
  { exists "srv", "host", "28016", "pw", [SocketState OPEN; SocketOpen]. reflexivity. }
  assert (Hopen : is_open connected = true) by reflexivity.
  split; [exact Hreach|]. split; [exact Hopen|].
  exact (send_then_reply_restores_table (fun _ => None) None connected "status" "{}" 7%nat []
           Hreach Hopen).
Defined.

Lemma scheduleRestart_only_logs_and_timers_witness :
  (NaN : Date) = NaN /\
  exists result added,
    scheduleRestart 0 NaN "Daily restart" connected = (result, appends added connected) /\
    result = Thrown (RangeError "Invalid time value") /\ added = [].
Proof.
  split; [reflexivity|].
  destruct (scheduleRestart_only_logs_and_timers connected 0 NaN "Daily restart")
    as (result & added & Heq & _ & _ & Hnan & _).
  exists result, added. split; [exact Heq|]. exact (Hnan eq_refl).
Defined.

Lemma fire_sets_no_cascade_witness :
  (Restart : task) = Restart /\
  exists added,
    fire (fun _ => None) None 0 Restart connected = (Returned tt, appends added connected) /\
    delays added = [].
Proof.
  split; [reflexivity|].
  destruct (fire_sets_no_cascade (fun _ => None) None connected 0 Restart)
    as (added & Heq & _ & Hrestart).
  exists added. split; [exact Heq|]. exact (Hrestart eq_refl).
Defined.

(** ** Startup *)

Section StartupMore.
Context {Handler : Type}.
Implicit Types (s : state Handler).

Lemma forEach_app {A} (f : A -> M Handler unit) (before after : list A) s :
  forEach (before ++ after) f s
  = match forEach before f s with
    | (Returned _, s') => forEach after f s'
    | (Thrown e, s') => (Thrown e, s')
    end.
Proof.
  revert s. induction before as [|x rest IH]; intros s; [reflexivity|].
  cbn [app forEach]. unfold bind. destruct (f x s) as [[[]|e] s']; [apply IH | reflexivity].
Qed.

Lemma arm_daily_effects timeStr now_get now_arm s :
  exists result added,
    arm_daily timeStr now_get now_arm s = (result, appends added s) /\
    frames added = [] /\ invocations added = 0%nat /\ (length (delays added) <= 11)%nat.
Proof.
  unfold arm_daily.
  destruct (scheduleRestart_effects s now_arm (getNextRestartTime timeStr now_get)
              "Daily restart") as (result & added & Heq & Hf & Hi & Hd & _).
  exists result, added. auto.
Qed.

Lemma daily_loop_effects (times : list (string * (Z * Z))) s :
  exists result added,
    forEach times (fun entry => arm_daily (fst entry) (fst (snd entry)) (snd (snd entry))) s
    = (result, appends added s) /\
    frames added = [] /\ invocations added = 0%nat /\
    (length (delays added) <= 11 * length times)%nat.
Proof.
  revert s. induction times as [|[timeStr [now_get now_arm]] rest IH]; intros s.
  - exists (Returned tt), []. rewrite appends_nil. cbn. repeat split; reflexivity || lia.
  - cbn [forEach fst snd]. unfold bind.
    destruct (arm_daily_effects timeStr now_get now_arm s)
      as (result & added & Heq & Hf & Hi & Hd).
    rewrite Heq. destruct result as [[]|e].
    + destruct (IH (appends added s)) as (result' & added' & Heq' & Hf' & Hi' & Hd').
      exists result', (added ++ added')%list.
      rewrite Heq', appends_appends.
      rewrite frames_app, invocations_app, delays_app, length_app, Hf, Hf', Hi, Hi'.
      cbn [length]. repeat split; reflexivity || lia.
    + exists (Thrown e), added. cbn [length]. repeat split; assumption || lia.
Qed.

Lemma arm_daily_without_colon timeStr now_get now_arm s :
  contains ":" timeStr = false ->
  arm_daily timeStr now_get now_arm s = (Thrown (RangeError "Invalid time value"), s).
Proof.
  intros Hcolon. unfold arm_daily, getNextRestartTime.
  rewrite split_without_separator by exact Hcolon.
  cbn [map element nth]. rewrite DateUTC_NaN_minutes. reflexivity.
Qed.

End StartupMore.

(** X16.  One configured time at startup.  For a valid ["HH:MM"], with the
    clock read at [now_get] by [getNextRestartTime] and at [now_arm], no
    earlier, by [scheduleRestart]: while the second reading is still before
    the computed instant, the cascade is armed with its last timer due at
    that instant and every delay at most one day; once the clock has reached
    the instant, the entry is dropped with "Event time already passed." and no
    timer, not moved to the next day. *)
Theorem arm_daily_entry
    {Handler} (s : state Handler) (h m now_get now_arm : Z) :
  0 <= h < 24 -> 0 <= m < 60 ->
  0 <= now_get <= maxTime - msPerDay -> now_get <= now_arm ->
  exists next,
    getNextRestartTime (hhmm h m) now_get = Num next /\
    (now_arm < next ->
     exists added,
       arm_daily (hhmm h m) now_get now_arm s = (Returned tt, appends added s) /\
       List.last (delays added) 0 = next - now_arm /\
       Forall (fun delay => 0 < delay <= 86400000) (delays added)) /\
    (next <= now_arm ->
     arm_daily (hhmm h m) now_get now_arm s
     = (Returned tt,
        appends [Log info ("[" ++ name (client s) ++ "] Event time already passed.")] s)).
Proof.
  intros Hh Hm Hget Harm.
  assert (Hday : msPerDay = 86400000) by reflexivity.
  assert (Hhour : msPerHour = 3600000) by reflexivity.
  assert (Hmin : msPerMinute = 60000) by reflexivity.
  pose proof (YearFromTime_epoch now_get ltac:(lia)) as Hyear.
  pose proof (today_at_bounds now_get h m Hh Hm) as Hb.
  pose proof (today_at_ceiling now_get h m Hh Hm ltac:(lia)) as [Hc1 Hc2].
  assert (Hnext : getNextRestartTime (hhmm h m) now_get
                  = Num (next_from (today_at now_get h m) now_get))
    by (apply getNextRestartTime_value; lia).
  assert (Hrange : now_get < next_from (today_at now_get h m) now_get <= now_get + 86400000).
  { unfold next_from. destruct (Z.leb_spec (today_at now_get h m) now_get); lia. }
  set (next := next_from (today_at now_get h m) now_get) in *.
  exists next. split; [exact Hnext|]. unfold arm_daily. rewrite Hnext. split.
  - intros Hahead. eexists. split; [apply scheduleRestart_armed; lia|].
    change (delays (?e :: ?rest)) with (delays rest).
    rewrite !delays_app, delays_announcement_timers.
    change (delays [SetTimeout (Terminal "Daily restart") (next - now_arm)])
      with [next - now_arm].
    split; [apply List.last_last|].
    destruct (intervals_decreasing) as [_ Hpos].
    apply List.Forall_forall. intros d Hd.
    apply List.in_app_iff in Hd as [Hd|[<-|[]]]; [|lia].
    apply List.in_map_iff in Hd as (L & <- & HL).
    apply List.filter_In in HL as [HL Hlt]. apply Z.ltb_lt in Hlt.
    pose proof (proj1 (List.Forall_forall _ _) Hpos L HL) as H0. cbv beta in H0. lia.
  - intros Hpassed. apply scheduleRestart_stale. lia.
Qed.

Lemma arm_daily_entry_witness :
  0 <= 8 < 24 /\ 0 <= 30 < 60 /\
  0 <= 1704067200000 <= maxTime - msPerDay /\ 1704067200000 <= 1704067200005 /\
  exists next,
    getNextRestartTime (hhmm 8 30) 1704067200000 = Num next /\
    (1704067200005 < next ->
     exists added,
       arm_daily (hhmm 8 30) 1704067200000 1704067200005 connected
       = (Returned tt, appends added connected) /\
       List.last (delays added) 0 = next - 1704067200005 /\
       Forall (fun delay => 0 < delay <= 86400000) (delays added)) /\
    (next <= 1704067200005 ->
     arm_daily (hhmm 8 30) 1704067200000 1704067200005 connected
     = (Returned tt,
        appends [Log info ("[" ++ name (client connected) ++ "] Event time already passed.")]
                connected)).
Proof.
  assert (Hh : 0 <= 8 < 24) by lia.
  assert (Hm : 0 <= 30 < 60) by lia.
  assert (Hget : 0 <= 1704067200000 <= maxTime - msPerDay)
    by (unfold maxTime, msPerDay; lia).
  assert (Harm : 1704067200000 <= 1704067200005) by lia.
  split; [exact Hh|]. split; [exact Hm|]. split; [exact Hget|]. split; [exact Harm|].
  exact (arm_daily_entry connected 8 30 1704067200000 1704067200005 Hh Hm Hget Harm).
Defined.

(** X17.  A time string without a colon stops the startup loop.  When the
    entries before it were processed normally, [start_server] throws the
    [RangeError] at that entry with the state those entries left: the entries
    after it are never armed. *)
Theorem start_server_stops_at_bad_time
    {Handler} (serverName host port password : string)
    (before after : list (string * (Z * Z))) (bad : string * (Z * Z)) :
  contains ":" (fst bad) = false ->
  fst (start_server (Handler := Handler) serverName host port password (Some before))
  = Returned tt ->
  start_server serverName host port password (Some (before ++ bad :: after)%list)
  = (Thrown (RangeError "Invalid time value"),
     snd (start_server (Handler := Handler) serverName host port password (Some before))).
Proof.
  intros Hbad Hbefore. unfold start_server in *. rewrite forEach_app.
  destruct (forEach before _ _) as [[[]|e] s'] eqn:Hrun; cbn [fst snd] in *;
    [|discriminate].
  cbn [forEach]. unfold bind.
  destruct bad as [timeStr [now_get now_arm]]. cbn [fst snd] in *.
  now rewrite arm_daily_without_colon by exact Hbad.
Qed.

Lemma start_server_stops_at_bad_time_witness :
  contains ":" (fst ("0830", (1704067200000, 1704067200001))) = false /\
  fst (start_server (Handler := nat) "srv" "host" "28016" "pw"
         (Some [(hhmm 6 0, (1704067200000, 1704067200000))]))
  = Returned tt /\
  start_server "srv" "host" "28016" "pw"
    (Some ([(hhmm 6 0, (1704067200000, 1704067200000))] ++
           ("0830", (1704067200000, 1704067200001)) ::
           [(hhmm 18 0, (1704067200002, 1704067200002))])%list)
  = (Thrown (RangeError "Invalid time value"),
     snd (start_server (Handler := nat) "srv" "host" "28016" "pw"
            (Some [(hhmm 6 0, (1704067200000, 1704067200000))]))).
Proof.
  assert (Hbad : contains ":" (fst ("0830", (1704067200000, 1704067200001))) = false)
    by reflexivity.
  assert (Hbefore : fst (start_server (Handler := nat) "srv" "host" "28016" "pw"
                           (Some [(hhmm 6 0, (1704067200000, 1704067200000))]))
                    = Returned tt) by (vm_compute; reflexivity).
  split; [exact Hbad|]. split; [exact Hbefore|].
  exact (start_server_stops_at_bad_time "srv" "host" "28016" "pw"
           [(hhmm 6 0, (1704067200000, 1704067200000))]
           [(hhmm 18 0, (1704067200002, 1704067200002))]
           ("0830", (1704067200000, 1704067200001)) Hbad Hbefore).
Defined.

(** X18.  Startup only logs and sets timers.  Whatever the configured
    times, valid or not, [start_server] puts no frame on the socket, calls no
    callback and leaves the client as the constructor made it (empty table,
    counter at 1000, socket connecting); it sets at most eleven timers per
    configured time. *)
Theorem start_server_only_logs_and_timers
    {Handler} (serverName host port password : string)
    (dailyRestartTimesUTC : option (list (string * (Z * Z)))) :
  exists result added,
    start_server (Handler := Handler) serverName host port password dailyRestartTimesUTC
    = (result, appends added (new_RconClient serverName host port password)) /\
    frames added = [] /\ invocations added = 0%nat /\
    (length (delays added)
     <= 11 * length (match dailyRestartTimesUTC with Some times => times | None => [] end))%nat.
Proof.
  unfold start_server. destruct dailyRestartTimesUTC as [times|].
  - apply daily_loop_effects.
  - exists (Returned tt), []. rewrite appends_nil. cbn. repeat split; reflexivity || lia.
Qed.

(** X19.  The webhook notification never throws and never touches the
    client, the socket or the timers.  When the address parses, it makes one
    request, to the address's host and path with query, whose body is one
    embed with the title "{serverName} - {restartType}", the given
    description and the colour 16711680, and logs one info line; when the
    address does not parse, the [TypeError] is caught and one error line is
    logged instead. *)
Theorem sendDiscordNotification_never_throws
    {Handler} (new_URL : string -> option URL) (s : state Handler)
    (webhookUrl serverName restartType reconnectMsg : string) :
  exists added,
    sendDiscordNotification new_URL webhookUrl serverName restartType reconnectMsg s
    = (Returned tt, appends added s) /\
    frames added = [] /\ delays added = [] /\ invocations added = 0%nat /\
    (forall u, new_URL webhookUrl = Some u ->
       added
       = [HttpsRequest (hostname u) (pathname u ++ search u)
            (JObject [("embeds",
                       JArray [JObject [("title", JString (serverName ++ " - " ++ restartType));
                                        ("description", JString reconnectMsg);
                                        ("color", JNumber 16711680)]])]);
          Log info ("[" ++ serverName ++ "] Discord notification sent.")]) /\
    (new_URL webhookUrl = None ->
       added
       = [Log error_level ("[" ++ serverName ++
                           "] Failed to send Discord notification: TypeError: Invalid URL")]).
Proof.
  unfold sendDiscordNotification, appends. unfold_M.
  destruct (new_URL webhookUrl) as [u|]; cbn.
  - eexists. split; [now rewrite <- app_assoc|].
    repeat split; try reflexivity; [|discriminate].
    intros u' Hu. now injection Hu as <-.
  - eexists. split; [reflexivity|].
    repeat split; try reflexivity. discriminate.
Qed.

Lemma sendDiscordNotification_never_throws_witness :
  (fun _ : string => @None URL) "not a url" = None /\
  exists added,
    sendDiscordNotification (fun _ => None) "not a url" "srv" "Daily restart"
      "Reconnect in 5 minutes" connected
    = (Returned tt, appends added connected) /\
    added
    = [Log error_level ("[" ++ "srv" ++
                        "] Failed to send Discord notification: TypeError: Invalid URL")].
Proof.
  split; [reflexivity|].
  destruct (sendDiscordNotification_never_throws (fun _ => None) connected "not a url" "srv"
              "Daily restart" "Reconnect in 5 minutes")
    as (added & Heq & _ & _ & _ & _ & Hbad).
  exists added. split; [exact Heq|]. exact (Hbad eq_refl).
Defined.

(** ** A whole cascade, every timer on time *)

Section OnTimeMore.
Context {Handler : Type}.
Variable new_URL : string -> option URL.
Variable discordWebhook : option string.
Implicit Types (s : state Handler) (label : string).

Lemma skipn_length_app {A} (l l' : list A) : skipn (length l) (l ++ l') = l'.
Proof. induction l as [|x l IH]; [reflexivity | exact IH]. Qed.

Lemma frames_send_events_open cmd s :
  is_open s = true -> frames (send_events cmd s) = [packet_of (-1) cmd].
Proof. intros H. unfold send_events. now rewrite H. Qed.

(** Announcement timers that run on time all announce. *)
Lemma fire_timers_announcements now ms label (leads : list Z) rest s :
  is_open s = true ->
  exists added,
    fire_timers new_URL discordWebhook now
      (map (fun L => SetTimeout (Announce (now + ms) label L) (ms - L * 1000)) leads ++ rest) s
    = fire_timers new_URL discordWebhook now rest (appends added s) /\
    frames added = map (announcement label) leads.
Proof.
  intros Hopen. revert s Hopen. induction leads as [|L leads IH]; intros s Hopen.
  - exists []. now rewrite appends_nil.
  - cbn [map app fire_timers]. unfold bind at 1.
    replace (now + (ms - L * 1000)) with (now + (ms - L * 1000) + 0) by lia.
    rewrite fire_Announce.
    replace (now + ms - (now + (ms - L * 1000) + 0)) with (L * 1000) by lia.
    destruct (Z.leb_spec ((L - 1) * 1000) (L * 1000)); [|lia].
    match goal with |- context [appends ?ev s] => set (events := ev) end.
    destruct (IH (appends events s) Hopen) as (added & Heq & Hframes).
    exists (events ++ added)%list. rewrite Heq, appends_appends. split; [reflexivity|].
    rewrite frames_app, Hframes. subst events.
    rewrite frames_app, frames_send_events_open by exact Hopen. reflexivity.
Qed.

End OnTimeMore.

(** X20.  The wire transcript of a cascade.  Armed for an instant strictly
    ahead on an open socket that stays open, with every timer run exactly
    when it is due, a cascade sends, in this order and nothing else: one
    announcement "{label} in {formatTime(L)}" for each lead time [L] of the
    list below [msUntilRestart / 1000], longest first; then "Restarting
    now..."; then "server.save"; then, two seconds later, "restart 0".  All
    frames carry the identifier -1 and the client is left as it was. *)
Theorem cascade_on_time_transcript
    {Handler} (new_URL : string -> option URL) (discordWebhook : option string)
    (s : state Handler) (now ms : Z) (label : string) :
  0 < ms -> is_open s = true ->
  frames (trace (cascade_on_time new_URL discordWebhook now (now + ms) label s))
  = (frames (trace s) ++
     map (announcement label) (List.filter (fun L => L * 1000 <? ms) intervals) ++
     [packet_of (-1) "say [Notification] Restarting now...";
      packet_of (-1) "server.save";
      packet_of (-1) "restart 0"])%list /\
  client (cascade_on_time new_URL discordWebhook now (now + ms) label s) = client s.
Proof.
  intros Hms Hopen. unfold cascade_on_time.
  rewrite scheduleRestart_armed by lia.
  replace (now + ms - now) with ms by lia.
  cbn [snd].
  match goal with |- context [appends ?ev s] => set (added := ev) end.
  change (trace (appends added s)) with (trace s ++ added)%list.
  rewrite skipn_length_app. subst added.
  cbn [fire_timers]. unfold announcement_timers.
  match goal with |- context [appends ?ev s] => set (armed := appends ev s) end.
  assert (Harmed : is_open armed = true) by exact Hopen.
  destruct (fire_timers_announcements new_URL discordWebhook now ms label
              (List.filter (fun L => L * 1000 <? ms) intervals)
              [SetTimeout (Terminal label) ms] armed Harmed)
    as (announced & Heq & Hframes).
  rewrite Heq. cbn [fire_timers]. unfold bind, ret.
  rewrite fire_Terminal. rewrite fire_Restart. cbn [snd].
  rewrite !appends_appends. unfold armed. rewrite !appends_appends.
  rewrite !send_events_appends.
  unfold appends. cbn [trace client]. split; [|reflexivity].
  rewrite !frames_app. rewrite Hframes, frames_webhook_events.
  rewrite !frames_send_events_open by exact Hopen.
  change (frames (Log _ _ :: ?rest)) with (frames rest).
  rewrite !frames_app.
  pose proof (frames_announcement_timers (Handler := Handler) (now + ms) ms label) as Hnone.
  unfold announcement_timers in Hnone. rewrite Hnone.
  cbn. rewrite ?app_nil_r. rewrite <- ?app_assoc. reflexivity.
Qed.

Lemma cascade_on_time_transcript_witness :
  0 < 40000 /\ is_open connected = true /\
  frames (trace (cascade_on_time (fun _ => None) None 1704067160000
                   (1704067160000 + 40000) "Daily restart" connected))
  = (frames (trace connected) ++
     map (announcement "Daily restart")
         (List.filter (fun L => L * 1000 <? 40000) intervals) ++
     [packet_of (-1) "say [Notification] Restarting now...";
      packet_of (-1) "server.save";
      packet_of (-1) "restart 0"])%list.
Proof.
  assert (Hms : 0 < 40000) by lia.
  assert (Hopen : is_open connected = true) by reflexivity.
  split; [exact Hms|]. split; [exact Hopen|].
  exact (proj1 (cascade_on_time_transcript (fun _ => None) None connected 1704067160000
                  40000 "Daily restart" Hms Hopen)).
Defined.

(** ** More on the listener and on the time string *)


Section TimeStringMore.

Lemma split_field sep field rest :
  contains sep field = false ->
  split sep (field ++ String sep rest) = field :: split sep rest.
Proof.
  induction field as [|c field IH]; intros H.
  - cbv [String.append]. cbn [split]. now rewrite Ascii.eqb_refl.
  - cbn [contains] in H. apply orb_false_iff in H as [Hc Hfield].
    change (String c field ++ String sep rest) with (String c (field ++ String sep rest)).
    cbn [split]. rewrite Hc, (IH Hfield). reflexivity.
Qed.

Lemma two_digits_without_colon n :
  0 <= n < 100 -> contains ":" (two_digits n) = false.
Proof.
  intros H. unfold two_digits. cbn [contains].
  rewrite !digit_char_not_colon by (Z.div_mod_to_equations; lia). reflexivity.
Qed.

Lemma append_assoc (a b c : string) : (a ++ b) ++ c = a ++ b ++ c.
Proof.
  induction a as [|x a IH]; [reflexivity|].
  change (String x (((a ++ b) ++ c)) = String x (a ++ b ++ c)). now rewrite IH.
Qed.

End TimeStringMore.

(** X22.  Only the first two fields of the time string count.  Whatever
    follows a second colon (seconds, say, or anything else) is ignored: the
    result is the one for ["HH:MM"] alone, for every clock reading. *)
Theorem getNextRestartTime_ignores_further_fields h m suffix now :
  0 <= h < 100 -> 0 <= m < 100 ->
  getNextRestartTime (hhmm h m ++ ":" ++ suffix) now = getNextRestartTime (hhmm h m) now.
Proof.
  intros Hh Hm. unfold getNextRestartTime.
  rewrite split_hhmm by lia.
  unfold hhmm. rewrite !append_assoc.
  change (":" ++ two_digits m ++ ":" ++ suffix)
    with (String ":" (two_digits m ++ String ":" suffix)).
  rewrite split_field by now apply two_digits_without_colon.
  rewrite split_field by now apply two_digits_without_colon.
  reflexivity.
Qed.

Lemma getNextRestartTime_ignores_further_fields_witness :
  0 <= 8 < 100 /\ 0 <= 30 < 100 /\
  getNextRestartTime (hhmm 8 30 ++ ":" ++ "45") 1704067200000
  = getNextRestartTime (hhmm 8 30) 1704067200000.
Proof.
  assert (Hh : 0 <= 8 < 100) by lia.
  assert (Hm : 0 <= 30 < 100) by lia.
  split; [exact Hh|]. split; [exact Hm|].
  exact (getNextRestartTime_ignores_further_fields 8 30 "45" 1704067200000 Hh Hm).
Defined.

(** X23.  Zero padding is not required: a one-digit hour or minute is read
    as the same number as its padded form, so ["8:5"] stands for ["08:05"],
    for every clock reading. *)
Theorem getNextRestartTime_unpadded h m now :
  0 <= h < 10 -> 0 <= m < 10 ->
  getNextRestartTime (String (digit_char h) (String ":" (String (digit_char m) ""))) now
  = getNextRestartTime (hhmm h m) now.
Proof.
  intros Hh Hm. unfold getNextRestartTime.
  rewrite split_hhmm by lia. cbn [split].
  rewrite !digit_char_not_colon by lia. rewrite Ascii.eqb_refl.
  cbn [map element nth]. rewrite !Number_two_digits by lia.
  unfold Number. cbn [digits_value]. rewrite !digit_of_digit_char by lia.
  reflexivity.
Qed.

Lemma getNextRestartTime_unpadded_witness :
  0 <= 8 < 10 /\ 0 <= 5 < 10 /\
  getNextRestartTime (String (digit_char 8) (String ":" (String (digit_char 5) "")))
                     1704067200000
  = getNextRestartTime (hhmm 8 5) 1704067200000.
Proof.
  assert (Hh : 0 <= 8 < 10) by lia.
  assert (Hm : 0 <= 5 < 10) by lia.
  split; [exact Hh|]. split; [exact Hm|].
  exact (getNextRestartTime_unpadded 8 5 1704067200000 Hh Hm).
Defined.
